(** * BookSphere: agent hub, popularity scoring and suggestion pipeline

    A shallow embedding of [agents/base_agent.py], [agents/popularity_agent.py]
    and [agents/suggestion_agent.py].

    Conventions of the embedding:
    - a Python [float] is a real number ([R]), so there is no rounding and
      no NaN; [np.log10] is [ln x / ln 10] and is only meaningful on
      positive arguments;
    - a book is a Python dict: every key the agents read is an optional
      field, and [dict.get(key, default)] is written out with its default;
      a value missing from a data frame row is a missing key;
    - the dicts of a result list are distinct objects in the source (each
      comes from its own [to_dict()]), so an in-place update of a dict is
      the updated record passed on;
    - the hub's [agents] dict is the store of the agents' states: a
      mutation of an agent reached through the hub is written back under
      its key;
    - [uuid.uuid4()] and [datetime.now()] draw from counters kept in the
      world state; the module-level [logger] appends to a list of records;
    - a Python exception is an explicit [Raised] outcome;
    - the vector store and the pandas operations are interfaces. *)

From Stdlib Require Import Reals Lra Lia ZArith List String Ascii Bool.
From Stdlib Require Import Permutation Sorted.
Import ListNotations.

Local Open Scope R_scope.
Local Open Scope string_scope.

(** ** Python values used as dictionary keys *)

(** The value stored under ["isbn13"]: an integer in the catalogue frame,
    a string or [None] when a caller supplies the dict. *)
Inductive Isbn : Type :=
| IsbnNone
| IsbnInt (z : Z)
| IsbnStr (s : string).

Definition Isbn_eq_dec (a b : Isbn) : {a = b} + {a <> b}.
Proof. decide equality; [apply Z.eq_dec | apply string_dec]. Defined.

Definition isbn_eqb (a b : Isbn) : bool :=
  if Isbn_eq_dec a b then true else false.

(** Python truthiness of such a value ([if isbn and ...]). *)
Definition truthy (i : Isbn) : bool :=
  match i with
  | IsbnNone => false
  | IsbnInt z => negb (Z.eqb z 0)
  | IsbnStr s => negb (String.eqb s "")
  end.

(** ** Books *)

Record Book : Type := mkBook {
  isbn13 : option Isbn;
  title : option string;
  authors : option string;
  simple_categories : option string;
  average_rating : option R;
  ratings_count : option Z;
  joy : option R;
  sadness : option R;
  anger : option R;
  fear : option R;
  surprise : option R;
  popularity_score : option R;
  emotion_score : option R;
  trend_score : option R
}.

(** [d.get(key, default)] *)
Definition get {A : Type} (field : option A) (default : A) : A :=
  match field with
  | Some v => v
  | None => default
  end.

Definition set_popularity_score (b : Book) (v : R) : Book :=
  mkBook (isbn13 b) (title b) (authors b) (simple_categories b)
         (average_rating b) (ratings_count b)
         (joy b) (sadness b) (anger b) (fear b) (surprise b)
         (Some v) (emotion_score b) (trend_score b).

Definition set_emotion_score (b : Book) (v : R) : Book :=
  mkBook (isbn13 b) (title b) (authors b) (simple_categories b)
         (average_rating b) (ratings_count b)
         (joy b) (sadness b) (anger b) (fear b) (surprise b)
         (popularity_score b) (Some v) (trend_score b).

Definition set_trend_score (b : Book) (v : R) : Book :=
  mkBook (isbn13 b) (title b) (authors b) (simple_categories b)
         (average_rating b) (ratings_count b)
         (joy b) (sadness b) (anger b) (fear b) (surprise b)
         (popularity_score b) (emotion_score b) (Some v).

Definition set_average_rating (b : Book) (v : R) : Book :=
  mkBook (isbn13 b) (title b) (authors b) (simple_categories b)
         (Some v) (ratings_count b)
         (joy b) (sadness b) (anger b) (fear b) (surprise b)
         (popularity_score b) (emotion_score b) (trend_score b).

Definition set_ratings_count (b : Book) (v : Z) : Book :=
  mkBook (isbn13 b) (title b) (authors b) (simple_categories b)
         (average_rating b) (Some v)
         (joy b) (sadness b) (anger b) (fear b) (surprise b)
         (popularity_score b) (emotion_score b) (trend_score b).

(** ** Numeric primitives *)

Definition np_log10 (x : R) : R := ln x / ln 10.

(** Python's [min(a, b)]: [b] only when [b < a]. *)
Definition py_min (a b : R) : R := if Rlt_dec b a then b else a.

(** Strict comparison of floats as a boolean ([a > b]). *)
Definition Rgtb (a b : R) : bool := if Rlt_dec b a then true else false.

(** [a >= b] *)
Definition Rgeb (a b : R) : bool := if Rle_dec b a then true else false.

(** [a == b] *)
Definition Reqb (a b : R) : bool := if Req_dec_T a b then true else false.

(** ** Insertion-ordered dictionaries

    A Python [dict] keeps its keys in insertion order; assigning to an
    existing key keeps the key's position. *)

Section Dict.
Context {K V : Type}.
Variable K_eq_dec : forall a b : K, {a = b} + {a <> b}.

Definition dict : Type := list (K * V).

Fixpoint dict_get (d : dict) (k : K) : option V :=
  match d with
  | [] => None
  | (k', v) :: d' => if K_eq_dec k k' then Some v else dict_get d' k
  end.

Definition dict_contains (d : dict) (k : K) : bool :=
  match dict_get d k with
  | Some _ => true
  | None => false
  end.

(** [d[k] = v] *)
Fixpoint dict_set (d : dict) (k : K) (v : V) : dict :=
  match d with
  | [] => [(k, v)]
  | (k', v') :: d' =>
      if K_eq_dec k k' then (k', v) :: d'
      else (k', v') :: dict_set d' k v
  end.

Definition dict_keys (d : dict) : list K := map fst d.
End Dict.

(** ** Effects: log records, fresh identifiers, the clock, exceptions *)

Inductive LogLevel : Type := INFO | WARNING | ERROR.

Record LogRecord : Type := mkLog {
  log_level : LogLevel;
  log_text : string
}.

Record World : Type := mkWorld {
  next_uuid : N;
  clock : N;
  log : list LogRecord
}.

Inductive Exn : Type :=
| KeyError (key : string)
| ValueError
| IndexError
| SearchError.

Inductive Result (A : Type) : Type :=
| Returned (a : A)
| Raised (e : Exn).
Arguments Returned {A} a.
Arguments Raised {A} e.

Definition M (A : Type) : Type := World -> Result A * World.

Definition ret {A : Type} (a : A) : M A := fun w => (Returned a, w).

Definition bind {A B : Type} (m : M A) (k : A -> M B) : M B :=
  fun w =>
    match m w with
    | (Returned a, w') => k a w'
    | (Raised e, w') => (Raised e, w')
    end.

Definition raise {A : Type} (e : Exn) : M A := fun w => (Raised e, w).

(** [try: body except Exception as e: handler(e)] *)
Definition try_except {A : Type} (body : M A) (handler : Exn -> M A) : M A :=
  fun w =>
    match body w with
    | (Returned a, w') => (Returned a, w')
    | (Raised e, w') => handler e w'
    end.

Declare Scope monad_scope.
Delimit Scope monad_scope with monad.
Notation "x <- m ;; k" := (bind m (fun x => k))
  (at level 61, m at next level, right associativity) : monad_scope.
Notation "m ;;; k" := (bind m (fun _ => k))
  (at level 61, right associativity) : monad_scope.
Local Open Scope monad_scope.

Definition logger (lvl : LogLevel) (text : string) : M unit :=
  fun w => (Returned tt,
            mkWorld (next_uuid w) (clock w) (log w ++ [mkLog lvl text])).

(** [uuid.uuid4()] *)
Definition uuid4 : M N :=
  fun w => (Returned (next_uuid w),
            mkWorld (N.succ (next_uuid w)) (clock w) (log w)).

(** [datetime.now()] *)
Definition datetime_now : M N :=
  fun w => (Returned (clock w),
            mkWorld (next_uuid w) (N.succ (clock w)) (log w)).

(** [for x in l: body] threading an accumulator. *)
Fixpoint for_each {A S : Type} (l : list A) (body : A -> S -> M S) (s : S)
  : M S :=
  match l with
  | [] => ret s
  | x :: l' => s' <- body x s ;; for_each l' body s'
  end.

(** ** Message payloads *)

Module Filters.
Record t : Type := mk {
  category : option string;
  min_rating : option R;
  emotion_tone : option string
}.
Definition empty : t := mk None None None.
End Filters.

Module Criteria.
Record t : Type := mk {
  min_rating : option R;
  min_ratings_count : option Z;
  category : option string;
  top_n : option Z
}.
Definition empty : t := mk None None None None.
End Criteria.

(** The keys a handler reads from a request's [content] dict. *)
Record RequestContent : Type := mkRequest {
  query : option string;
  filters : option Filters.t;
  top_k : option Z;
  books_data : option (list Book);
  criteria : option Criteria.t;
  analysis_type : option string
}.

Record BookAnalysis : Type := mkBookAnalysis {
  ba_isbn13 : option Isbn;
  ba_title : option string;
  ba_popularity_score : R;
  ba_trend_score : R;
  ba_overall_score : R;
  ba_analysis_timestamp : N
}.

(** One row of [groupby(...).agg({...})]. *)
Record GroupStats : Type := mkGroupStats {
  gs_average_rating : R;
  gs_ratings_count : R;
  gs_isbn13 : Z;
  gs_trend_score : option R
}.

Inductive Content : Type :=
| Request (r : RequestContent)
| RecommendationResult (q : string) (filters_applied : Filters.t)
    (recommendations : list Book) (total_found : nat)
    (processing_timestamp : N)
| PopularityAnalysisResult (analysis : string) (books_analyzed : nat)
    (results : list BookAnalysis) (processing_time : N)
| TrendAnalysisResult (category_trends author_trends : list (string * GroupStats))
    (trending_books : list Book) (trend_analysis_timestamp : N)
| PopularBooksResult (popular_books : list Book) (criteria_used : Criteria.t)
    (total_books_analyzed : nat) (analysis_timestamp : N)
| ErrorContent (error : string) (original_message_id : N) (timestamp : N).

Definition empty_request : RequestContent :=
  mkRequest None None None None None None.

(** [message.content.get(key, ...)]: a key is present only in a dict of the
    request shape. *)
Definition content_request (c : Content) : RequestContent :=
  match c with
  | Request r => r
  | _ => empty_request
  end.

(** ** base_agent.py *)

Record AgentMessage : Type := mkMessage {
  message_id : N;
  sender_id : string;
  receiver_id : string;
  message_type : string;
  content : Content;
  timestamp : N;
  priority : Z
}.

Module BaseAgent.

Record t : Type := mk {
  agent_id : string;
  agent_name : string;
  message_queue : list AgentMessage;
  is_active : bool;
  capabilities : list string
}.

Definition __init__ (agent_id agent_name : string) : t :=
  mk agent_id agent_name [] true [].

Definition send_message (self : t) (receiver_id message_type : string)
    (content : Content) (priority : Z) : M AgentMessage :=
  id <- uuid4 ;;
  now <- datetime_now ;;
  let message :=
    mkMessage id (agent_id self) receiver_id message_type content now
              priority in
  logger INFO ("Agent " ++ agent_name self ++ " sending " ++ message_type
               ++ " to " ++ receiver_id) ;;;
  ret message.

Definition receive_message (self : t) (message : AgentMessage) : M t :=
  let self' :=
    mk (agent_id self) (agent_name self)
       (message_queue self ++ [message])
       (is_active self) (capabilities self) in
  logger INFO ("Agent " ++ agent_name self ++ " received "
               ++ message_type message ++ " from "
               ++ sender_id message) ;;;
  ret self'.



End BaseAgent.

Module AgentCommunicationHub.

Record t : Type := mk {
  agents : list (string * BaseAgent.t);
  message_history : list AgentMessage
}.

Definition __init__ : t := mk [] [].

Definition register_agent (self : t) (agent : BaseAgent.t) : M t :=
  let self' :=
    mk (dict_set string_dec (agents self) (BaseAgent.agent_id agent) agent)
       (message_history self) in
  logger INFO ("Registered agent: " ++ BaseAgent.agent_name agent ++ " ("
               ++ BaseAgent.agent_id agent ++ ")") ;;;
  ret self'.

(** [self.agents[key]] *)
Definition agents_getitem (self : t) (key : string) : M BaseAgent.t :=
  match dict_get string_dec (agents self) key with
  | Some a => ret a
  | None => raise (KeyError key)
  end.

Definition route_message (self : t) (message : AgentMessage) : M t :=
  if dict_contains string_dec (agents self) (receiver_id message) then
    agent <- agents_getitem self (receiver_id message) ;;
    agent' <- BaseAgent.receive_message agent message ;;
    ret (mk (dict_set string_dec (agents self) (receiver_id message) agent')
            (message_history self ++ [message]))
  else
    logger ERROR ("Agent " ++ receiver_id message ++ " not found") ;;;
    ret self.

(** The loop runs over the items of [self.agents]; routing never adds or
    removes a key, and [send_message] reads only [agent_id] and
    [agent_name], which routing never writes. *)
Definition broadcast_message (self : t) (sender_id message_type : string)
    (content : Content) (priority : Z) : M t :=
  for_each (agents self)
    (fun item hub =>
       let '(agent_id, agent) := item in
       if string_dec agent_id sender_id then ret hub
       else
         message <- BaseAgent.send_message agent agent_id message_type
                      content priority ;;
         route_message hub message)
    self.

(** A caller routing a sequence of messages, one call after the other. *)
Definition route_all (self : t) (messages : list AgentMessage) : M t :=
  for_each messages (fun message hub => route_message hub message) self.

(** The hub keeps at most [capacity] entries of history, whatever is
    routed through a hub that starts with an empty history. *)
Definition history_bounded_by (capacity : nat) : Prop :=
  forall (self : t) (messages : list AgentMessage) (w : World)
         (hub' : t) (w' : World),
    message_history self = [] ->
    route_all self messages w = (Returned hub', w') ->
    (List.length (message_history hub') <= capacity)%nat.

(** What a Python dict filled by [register_agent] satisfies: distinct
    keys, each agent stored under its own [agent_id]. *)
Definition well_formed (self : t) : Prop :=
  NoDup (dict_keys (agents self))
  /\ Forall (fun item => BaseAgent.agent_id (snd item) = fst item)
            (agents self).

End AgentCommunicationHub.

(** ** Sorting

    [sorted(l, key=key, reverse=True)] and [l.sort(key=key, reverse=True)]:
    descending and stable, elements with equal keys keep their order. *)

Section Sorted.
Context {A : Type}.
Variable key : A -> R.

Fixpoint insert_desc (x : A) (l : list A) : list A :=
  match l with
  | [] => [x]
  | y :: l' =>
      if Rlt_dec (key x) (key y) then y :: insert_desc x l'
      else x :: y :: l'
  end.

Fixpoint py_sorted_desc (l : list A) : list A :=
  match l with
  | [] => []
  | x :: l' => insert_desc x (py_sorted_desc l')
  end.
End Sorted.

(** ** Strings *)

(** [c.isspace()] on an ASCII character. *)
Definition is_space (c : ascii) : bool :=
  let n := nat_of_ascii c in
  ((9 <=? n) && (n <=? 13) || (28 <=? n) && (n <=? 32))%nat.

(** [c.isdigit()] on an ASCII character. *)
Definition is_digit (c : ascii) : bool :=
  let n := nat_of_ascii c in
  ((48 <=? n) && (n <=? 57))%nat.

Fixpoint lstrip (s : string) : string :=
  match s with
  | EmptyString => EmptyString
  | String c s' => if is_space c then lstrip s' else s
  end.

Fixpoint take_word (s : string) : string :=
  match s with
  | EmptyString => EmptyString
  | String c s' => if is_space c then EmptyString else String c (take_word s')
  end.

(** [s.strip().split()[0]] *)
Definition first_word (s : string) : Result string :=
  match lstrip s with
  | EmptyString => Raised IndexError
  | w => Returned (take_word w)
  end.

Fixpoint filter_digits (s : string) : string :=
  match s with
  | EmptyString => EmptyString
  | String c s' =>
      if is_digit c then String c (filter_digits s') else filter_digits s'
  end.

Fixpoint digits_value (acc : Z) (s : string) : Z :=
  match s with
  | EmptyString => acc
  | String c s' =>
      digits_value (10 * acc + Z.of_nat (nat_of_ascii c - 48)) s'
  end.

(** [int(s)] on a string of decimal digits. *)
Definition py_int (s : string) : Result Z :=
  match s with
  | EmptyString => Raised ValueError
  | _ => Returned (digits_value 0 s)
  end.

(** [str(e)] *)
Definition exn_str (e : Exn) : string :=
  match e with
  | KeyError k => "'" ++ k ++ "'"
  | ValueError => "invalid literal for int() with base 10: ''"
  | IndexError => "list index out of range"
  | SearchError => "similarity search failed"
  end.

(** ** pandas

    A [DataFrame] is its column labels and its rows.  The operations the
    agents call on it and that depend on pandas' own treatment of missing
    values, rounding and tie order are an interface, [Pandas]. *)

Record DataFrame : Type := mkDataFrame {
  df_columns : list string;
  df_rows : list Book
}.

Definition key_if {A : Type} (field : option A) (name : string) : list string :=
  match field with
  | Some _ => [name]
  | None => []
  end.

(** The keys present in a book dict. *)
Definition book_keys (b : Book) : list string :=
  key_if (isbn13 b) "isbn13" ++ key_if (title b) "title"
  ++ key_if (authors b) "authors"
  ++ key_if (simple_categories b) "simple_categories"
  ++ key_if (average_rating b) "average_rating"
  ++ key_if (ratings_count b) "ratings_count"
  ++ key_if (joy b) "joy" ++ key_if (sadness b) "sadness"
  ++ key_if (anger b) "anger" ++ key_if (fear b) "fear"
  ++ key_if (surprise b) "surprise"
  ++ key_if (popularity_score b) "popularity_score"
  ++ key_if (emotion_score b) "emotion_score"
  ++ key_if (trend_score b) "trend_score".

(** [pd.DataFrame(records)]: the columns are the keys of the records. *)
Definition pd_DataFrame (records : list Book) : DataFrame :=
  mkDataFrame (nodup string_dec (flat_map book_keys records)) records.

(** [df.empty]: an axis of length zero. *)
Definition df_empty (df : DataFrame) : bool :=
  match df_columns df, df_rows df with
  | [], _ => true
  | _, [] => true
  | _, _ => false
  end.

Definition has_column (df : DataFrame) (name : string) : bool :=
  if in_dec string_dec name (df_columns df) then true else false.

(** [lst[:n]] and [df.head(n)]: a negative [n] counts from the end. *)
Definition py_slice_to {A : Type} (l : list A) (n : Z) : list A :=
  if (n <? 0)%Z
  then firstn (List.length l - Z.to_nat (- n)) l
  else firstn (Z.to_nat n) l.

Class Pandas : Type := {
  (** [df.groupby(by).agg({"average_rating": "mean", "ratings_count": "sum",
      "isbn13": "count"}).round(2)] *)
  groupby_agg_round : string -> DataFrame -> Result (list (string * GroupStats));
  (** [stats.sort_values("average_rating", ascending=False)] *)
  sort_values_average_rating :
    list (string * GroupStats) -> list (string * GroupStats);
  (** [df["trend_score"] = df.apply(f, axis=1)] *)
  assign_trend_score : (Book -> R) -> DataFrame -> Result DataFrame;
  (** [df["popularity_score"] = df.apply(f, axis=1)] *)
  assign_popularity_score : (Book -> R) -> DataFrame -> Result DataFrame;
  (** [df.nlargest(n, "trend_score")] *)
  nlargest_trend_score : nat -> DataFrame -> Result DataFrame;
  (** [df.sort_values("popularity_score", ascending=False)] *)
  sort_values_popularity_score : DataFrame -> Result DataFrame;
  (** [df[columns].to_dict("records")] *)
  select_to_dict : list string -> DataFrame -> Result (list Book)
}.


(** A pure computation that may raise, run inside [M]. *)
Definition lift {A : Type} (r : Result A) : M A := fun w => (r, w).

(** ** popularity_agent.py : scoring *)

Module PopularityAnalyzerAgent.

(** [self.popularity_weights] *)
Definition weight_average_rating : R := 3 / 10.
Definition weight_ratings_count : R := 25 / 100.
Definition weight_recent_trend : R := 2 / 10.
Definition weight_category_popularity : R := 15 / 100.
Definition weight_author_popularity : R := 1 / 10.

Definition _get_category_popularity_score (category : string) : R :=
  if String.eqb category "Fiction" then 8 / 10
  else if String.eqb category "Nonfiction" then 7 / 10
  else if String.eqb category "Children's Fiction" then 6 / 10
  else if String.eqb category "Children's Nonfiction" then 5 / 10
  else if String.eqb category "Other" then 3 / 10
  else 3 / 10.

Definition _calculate_popularity_score (book : Book) : R :=
  let score := 0 in
  let avg_rating := get (average_rating book) 0 in
  let score :=
    if Rlt_dec 0 avg_rating
    then score + weight_average_rating * (avg_rating / 5)
    else score in
  let ratings_count := get (ratings_count book) 0%Z in
  let score :=
    if Z_lt_dec 0 ratings_count
    then
      let normalized_count :=
        py_min (np_log10 (IZR (ratings_count + 1)) / 5) 1 in
      score + weight_ratings_count * normalized_count
    else score in
  let category := get (simple_categories book) "Other" in
  let category_score := _get_category_popularity_score category in
  let score := score + weight_category_popularity * category_score in
  py_min score 1.

Definition _calculate_trend_score (book : Book) : R :=
  let ratings_count := get (ratings_count book) 0%Z in
  let avg_rating := get (average_rating book) 0 in
  if (100 <? ratings_count)%Z && Rgtb avg_rating 4 then 8 / 10
  else if (50 <? ratings_count)%Z && Rgtb avg_rating (35 / 10) then 6 / 10
  else 3 / 10.

(** *** Message handlers *)

Definition _create_error_response (self : BaseAgent.t)
    (original_message : AgentMessage) (error_msg : string)
  : M AgentMessage :=
  now <- datetime_now ;;
  BaseAgent.send_message self (sender_id original_message) "error_response"
    (ErrorContent error_msg (message_id original_message) now) 3.

Definition _handle_popularity_analysis (self : BaseAgent.t)
    (message : AgentMessage) : M AgentMessage :=
  let books_data := get (books_data (content_request (content message))) [] in
  let analysis_type :=
    get (analysis_type (content_request (content message)))
        "comprehensive" in
  results <-
    for_each books_data
      (fun book results =>
         let popularity_score := _calculate_popularity_score book in
         let trend_score := _calculate_trend_score book in
         now <- datetime_now ;;
         ret (results ++
              [mkBookAnalysis (isbn13 book) (title book) popularity_score
                 trend_score ((popularity_score + trend_score) / 2) now])%list)
      [] ;;
  now <- datetime_now ;;
  BaseAgent.send_message self (sender_id message)
    "popularity_analysis_result"
    (PopularityAnalysisResult analysis_type (List.length results) results now)
    (priority message).

Section WithPandas.
Context {pd : Pandas}.

Definition _analyze_category_trends (books_df : DataFrame)
  : M (list (string * GroupStats)) :=
  if negb (has_column books_df "simple_categories") then ret []
  else
    category_stats <- lift (groupby_agg_round "simple_categories" books_df) ;;
    ret (map (fun kv =>
                let st := snd kv in
                (fst kv,
                 mkGroupStats (gs_average_rating st) (gs_ratings_count st)
                   (gs_isbn13 st)
                   (Some (gs_average_rating st * (4 / 10)
                          + np_log10 (gs_ratings_count st + 1) * (6 / 10)))))
             category_stats).

Definition _analyze_author_trends (books_df : DataFrame)
  : M (list (string * GroupStats)) :=
  if negb (has_column books_df "authors") then ret []
  else
    author_stats <- lift (groupby_agg_round "authors" books_df) ;;
    let trending_authors :=
      sort_values_average_rating
        (filter (fun kv =>
                   (1 <? gs_isbn13 (snd kv))%Z
                   || Rgtb (gs_average_rating (snd kv)) 4)
                author_stats) in
    ret (firstn 10 trending_authors).

Definition _identify_trending_books (books_df : DataFrame)
  : M (list Book) :=
  if df_empty books_df then ret []
  else
    books_df <- lift (assign_trend_score _calculate_trend_score books_df) ;;
    trending <- lift (nlargest_trend_score 20 books_df) ;;
    lift (select_to_dict
            ["isbn13"; "title"; "authors"; "trend_score"; "average_rating"]
            trending).

Definition _handle_trend_detection (self : BaseAgent.t)
    (message : AgentMessage) : M AgentMessage :=
  let books_df :=
    pd_DataFrame (get (books_data (content_request (content message))) []) in
  if df_empty books_df then
    _create_error_response self message "No books data provided"
  else
    category_trends <- _analyze_category_trends books_df ;;
    author_trends <- _analyze_author_trends books_df ;;
    trending_books <- _identify_trending_books books_df ;;
    now <- datetime_now ;;
    BaseAgent.send_message self (sender_id message) "trend_analysis_result"
      (TrendAnalysisResult category_trends author_trends trending_books now)
      (priority message).

(** [criteria.get(key)] used as a condition: a float or an integer is
    true unless it is zero, a string unless it is empty. *)
Definition truthy_R (v : option R) : bool :=
  match v with Some x => negb (Reqb x 0) | None => false end.
Definition truthy_Z (v : option Z) : bool :=
  match v with Some x => negb (x =? 0)%Z | None => false end.
Definition truthy_str (v : option string) : bool :=
  match v with Some x => negb (String.eqb x "") | None => false end.

(** [df[df[column] cond]]: [KeyError] when the column is absent. *)
Definition df_filter (df : DataFrame) (column : string)
    (cond : Book -> bool) : M DataFrame :=
  if has_column df column
  then ret (mkDataFrame (df_columns df) (filter cond (df_rows df)))
  else raise (KeyError column).

Definition _filter_books_by_criteria (books_df : DataFrame)
    (criteria : Criteria.t) : M DataFrame :=
  let filtered_df := books_df in
  filtered_df <-
    (if truthy_R (Criteria.min_rating criteria)
     then df_filter filtered_df "average_rating"
            (fun r => match average_rating r with
                      | Some x => Rgeb x (get (Criteria.min_rating criteria) 0)
                      | None => false
                      end)
     else ret filtered_df) ;;
  filtered_df <-
    (if truthy_Z (Criteria.min_ratings_count criteria)
     then df_filter filtered_df "ratings_count"
            (fun r => match ratings_count r with
                      | Some x =>
                          (get (Criteria.min_ratings_count criteria) 0 <=? x)%Z
                      | None => false
                      end)
     else ret filtered_df) ;;
  filtered_df <-
    (if truthy_str (Criteria.category criteria)
     then df_filter filtered_df "simple_categories"
            (fun r => match simple_categories r with
                      | Some x =>
                          String.eqb x (get (Criteria.category criteria) "")
                      | None => false
                      end)
     else ret filtered_df) ;;
  ret filtered_df.

Definition _score_books_for_popularity (books_df : DataFrame)
  : M DataFrame :=
  lift (assign_popularity_score _calculate_popularity_score books_df).

Definition _handle_popular_books_request (self : BaseAgent.t)
    (message : AgentMessage) : M AgentMessage :=
  let books_df :=
    pd_DataFrame (get (books_data (content_request (content message))) []) in
  let criteria :=
    get (criteria (content_request (content message))) Criteria.empty in
  if df_empty books_df then
    _create_error_response self message "No books data provided"
  else
    filtered_books <- _filter_books_by_criteria books_df criteria ;;
    scored_books <- _score_books_for_popularity filtered_books ;;
    scored_books <- lift (sort_values_popularity_score scored_books) ;;
    let top_n := get (Criteria.top_n criteria) 10%Z in
    let top_books := py_slice_to (df_rows scored_books) top_n in
    now <- datetime_now ;;
    BaseAgent.send_message self (sender_id message) "popular_books_result"
      (PopularBooksResult top_books criteria
         (List.length (df_rows scored_books)) now)
      (priority message).

End WithPandas.

(** The [user_preferences] dict of a scoring request. *)
Record ScoringPreferences : Type := mkScoringPreferences {
  preferred_category : option string;
  sp_min_rating : option R
}.

Definition _calculate_recommendation_score (recommendation : Book)
    (user_preferences : ScoringPreferences) : R :=
  let base_score := _calculate_popularity_score recommendation in
  let base_score :=
    if truthy_str (preferred_category user_preferences) then
      match simple_categories recommendation with
      | Some c =>
          if String.eqb c (get (preferred_category user_preferences) "")
          then base_score * (12 / 10) else base_score
      | None => base_score
      end
    else base_score in
  let base_score :=
    if truthy_R (sp_min_rating user_preferences) then
      if Rgeb (get (average_rating recommendation) 0)
              (get (sp_min_rating user_preferences) 0)
      then base_score * (11 / 10) else base_score
    else base_score in
  py_min base_score 1.

Section Dispatch.
Context {pd : Pandas}.

(** The handler of ["score_recommendations"] reads keys that
    [RequestContent] does not carry; [process_message] takes it as it
    comes. *)
Variable _handle_recommendation_scoring :
  BaseAgent.t -> AgentMessage -> M AgentMessage.

Definition process_message (self : BaseAgent.t) (message : AgentMessage)
  : M (option AgentMessage) :=
  try_except
    (if String.eqb (message_type message) "analyze_popularity" then
       response <- _handle_popularity_analysis self message ;;
       ret (Some response)
     else if String.eqb (message_type message) "detect_trends" then
       response <- _handle_trend_detection self message ;;
       ret (Some response)
     else if String.eqb (message_type message) "score_recommendations" then
       response <- _handle_recommendation_scoring self message ;;
       ret (Some response)
     else if String.eqb (message_type message) "get_popular_books" then
       response <- _handle_popular_books_request self message ;;
       ret (Some response)
     else
       logger WARNING ("Unknown message type: " ++ message_type message) ;;;
       ret None)
    (fun e =>
       logger ERROR ("Error processing message: " ++ exn_str e) ;;;
       response <- _create_error_response self message (exn_str e) ;;
       ret (Some response)).

End Dispatch.

End PopularityAnalyzerAgent.

(** ** suggestion_agent.py *)

Record Document : Type := mkDocument { page_content : string }.

(** The vector store: its truth value ([not self.vector_db]) and its
    search, which may raise. *)
Record VectorStore : Type := mkVectorStore {
  bool_value : bool;
  similarity_search : string -> Z -> Result (list Document)
}.

Record Emotions : Type := mkEmotions {
  e_joy : R;
  e_sadness : R;
  e_anger : R;
  e_fear : R;
  e_surprise : R
}.

Definition emotions_get (e : option Emotions) (name : string) (default : R)
  : R :=
  match e with
  | None => default
  | Some e =>
      if String.eqb name "joy" then e_joy e
      else if String.eqb name "sadness" then e_sadness e
      else if String.eqb name "anger" then e_anger e
      else if String.eqb name "fear" then e_fear e
      else if String.eqb name "surprise" then e_surprise e
      else default
  end.

Module SuggestionAgent.

Record t : Type := mk {
  base : BaseAgent.t;
  vector_db : option VectorStore;
  books_df : option DataFrame;
  classification_agent : option BaseAgent.t;
  popularity_agent : option BaseAgent.t
}.

Definition _calculate_simple_popularity_score (book : Book) : R :=
  let rating := get (average_rating book) 0 in
  let count := get (ratings_count book) 0%Z in
  let rating_score := rating / 5 in
  let count_score := py_min (np_log10 (IZR (count + 1)) / 5) 1 in
  (rating_score * (6 / 10)) + (count_score * (4 / 10)).

(** [except (ValueError, IndexError)] *)
Definition is_value_or_index_error (e : Exn) : bool :=
  match e with
  | ValueError | IndexError => true
  | _ => false
  end.

(** The body of the inner [try] for one document. *)
Definition lookup_document (books_df : DataFrame) (doc : Document)
    (results : list Book) : M (list Book) :=
  isbn_str <- lift (first_word (page_content doc)) ;;
  isbn_num <- lift (py_int (filter_digits isbn_str)) ;;
  book_data <-
    (if has_column books_df "isbn13"
     then ret (filter (fun r => match isbn13 r with
                                | Some (IsbnInt z) => (z =? isbn_num)%Z
                                | _ => false
                                end)
                      (df_rows books_df))
     else raise (KeyError "isbn13")) ;;
  match book_data with
  | [] => ret results
  | book_info :: _ => ret (results ++ [book_info])%list
  end.

Definition _perform_semantic_search (self : t) (query : string) (top_k : Z)
  : M (list Book) :=
  match vector_db self, books_df self with
  | Some db, Some df =>
      if negb (bool_value db) then
        logger ERROR "Vector database or books data not available" ;;;
        ret []
      else
        try_except
          (docs <- lift (similarity_search db query top_k) ;;
           for_each docs
             (fun doc results =>
                fun w =>
                  match lookup_document df doc results w with
                  | (Raised e, w') =>
                      if is_value_or_index_error e
                      then (logger WARNING
                              ("Error extracting ISBN from document: "
                               ++ exn_str e) ;;;
                            ret results) w'
                      else (Raised e, w')
                  | r => r
                  end)
             [])
          (fun e =>
             logger ERROR ("Error in semantic search: " ++ exn_str e) ;;;
             ret [])
  | _, _ =>
      logger ERROR "Vector database or books data not available" ;;;
      ret []
  end.

Definition key_of (result : Book) : Isbn := get (isbn13 result) (IsbnStr "").

Definition _get_emotion_scores (results : list Book)
  : list (Isbn * Emotions) :=
  fold_left
    (fun emotion_scores result =>
       let isbn := key_of result in
       let emotions :=
         mkEmotions (get (joy result) 0) (get (sadness result) 0)
                    (get (anger result) 0) (get (fear result) 0)
                    (get (surprise result) 0) in
       dict_set Isbn_eq_dec emotion_scores isbn emotions)
    results [].

Definition emotion_mapping (emotion_tone : string) : string :=
  if String.eqb emotion_tone "Happy" then "joy"
  else if String.eqb emotion_tone "Sad" then "sadness"
  else if String.eqb emotion_tone "Angry" then "anger"
  else if String.eqb emotion_tone "Suspenseful" then "fear"
  else if String.eqb emotion_tone "Surprising" then "surprise"
  else "joy".

Definition _filter_by_emotion (results : list Book)
    (emotion_scores : list (Isbn * Emotions)) (emotion_tone : string)
  : list Book :=
  let target_emotion := emotion_mapping emotion_tone in
  let results :=
    map (fun result =>
           let isbn := key_of result in
           set_emotion_score result
             (emotions_get (dict_get Isbn_eq_dec emotion_scores isbn)
                           target_emotion 0))
        results in
  py_sorted_desc (fun x => get (emotion_score x) 0) results.

Definition truthy_str (v : option string) : bool :=
  match v with Some x => negb (String.eqb x "") | None => false end.
Definition truthy_R (v : option R) : bool :=
  match v with Some x => negb (Reqb x 0) | None => false end.

Definition _apply_filters (results : list Book) (filters : Filters.t)
  : list Book :=
  let filtered_results := results in
  let filtered_results :=
    if truthy_str (Filters.category filters)
       && negb (String.eqb (get (Filters.category filters) "") "All")
    then filter (fun r =>
                   match simple_categories r with
                   | Some c => String.eqb c (get (Filters.category filters) "")
                   | None => false
                   end)
                filtered_results
    else filtered_results in
  let filtered_results :=
    if truthy_R (Filters.min_rating filters)
    then filter (fun r => Rgeb (get (average_rating r) 0)
                               (get (Filters.min_rating filters) 0))
                filtered_results
    else filtered_results in
  let filtered_results :=
    if truthy_str (Filters.emotion_tone filters)
       && negb (String.eqb (get (Filters.emotion_tone filters) "") "All")
    then
      let emotion_scores := _get_emotion_scores filtered_results in
      _filter_by_emotion filtered_results emotion_scores
        (get (Filters.emotion_tone filters) "")
    else filtered_results in
  filtered_results.

Definition _get_popularity_scores (self : t) (results : list Book)
  : list (Isbn * R) :=
  match popularity_agent self with
  | None => []
  | Some _ =>
      fold_left
        (fun scores book =>
           let score := _calculate_simple_popularity_score book in
           dict_set Isbn_eq_dec scores (key_of book) score)
        results []
  end.

(** The first loop of [_synthesize_recommendations]: the pair is
    [(seen_isbns, unique_results)]. *)
Definition remove_duplicates (results : list Book) : list Isbn * list Book :=
  fold_left
    (fun st result =>
       let '(seen_isbns, unique_results) := st in
       let isbn := key_of result in
       if truthy isbn
          && negb (if in_dec Isbn_eq_dec isbn seen_isbns then true else false)
       then (isbn :: seen_isbns, (unique_results ++ [result])%list)
       else (seen_isbns, unique_results))
    results ([], []).

Definition _synthesize_recommendations (results : list Book)
    (popularity_scores : list (Isbn * R)) (top_k : Z) : list Book :=
  let unique_results := snd (remove_duplicates results) in
  let unique_results :=
    map (fun result =>
           let isbn := key_of result in
           set_popularity_score result
             (get (dict_get Isbn_eq_dec popularity_scores isbn) 0))
        unique_results in
  let sorted_results :=
    py_sorted_desc (fun x => get (popularity_score x) 0) unique_results in
  py_slice_to sorted_results top_k.

Definition _handle_recommendation_request (self : t)
    (message : AgentMessage) : M AgentMessage :=
  let query := get (query (content_request (content message))) "" in
  let filters :=
    get (filters (content_request (content message))) Filters.empty in
  let top_k := get (top_k (content_request (content message))) 10%Z in
  semantic_results <- _perform_semantic_search self query (top_k * 2) ;;
  let filtered_results := _apply_filters semantic_results filters in
  let popularity_scores := _get_popularity_scores self filtered_results in
  let final_recommendations :=
    _synthesize_recommendations filtered_results popularity_scores top_k in
  now <- datetime_now ;;
  BaseAgent.send_message (base self) (sender_id message)
    "recommendation_result"
    (RecommendationResult query filters final_recommendations
       (List.length semantic_results) now)
    (priority message).

(** *** Preferences and the personalised pipeline *)

(** [c.lower()] on an ASCII character. *)
Definition lower_ascii (c : ascii) : ascii :=
  let n := nat_of_ascii c in
  if ((65 <=? n) && (n <=? 90))%nat then ascii_of_nat (n + 32) else c.

(** [s.lower()] *)
Fixpoint lower (s : string) : string :=
  match s with
  | EmptyString => EmptyString
  | String c s' => String (lower_ascii c) (lower s')
  end.

(** [word in s] on strings: [word] occurs in [s]. *)
Fixpoint contains (word s : string) : bool :=
  String.prefix word s
  || match s with
     | EmptyString => false
     | String _ s' => contains word s'
     end.

(** [any(word in s for word in words)] *)
Definition any_in (words : list string) (s : string) : bool :=
  existsb (fun word => contains word s) words.

Record QueryPreferences : Type := mkQueryPreferences {
  preferred_genres : list string;
  emotion_preference : option string;
  complexity_level : string
}.

Definition _extract_preferences_from_query (query : string)
  : QueryPreferences :=
  let query_lower := lower query in
  let genres := [] in
  let genres :=
    if any_in ["fiction"; "novel"; "story"] query_lower
    then (genres ++ ["Fiction"])%list else genres in
  let genres :=
    if any_in ["nonfiction"; "biography"; "history"] query_lower
    then (genres ++ ["Nonfiction"])%list else genres in
  let genres :=
    if any_in ["children"; "kids"; "young"] query_lower
    then (genres ++ ["Children's Fiction"])%list else genres in
  let emotion :=
    if any_in ["happy"; "joyful"; "uplifting"] query_lower then Some "joy"
    else if any_in ["sad"; "emotional"; "touching"] query_lower
    then Some "sadness"
    else if any_in ["exciting"; "thrilling"; "adventure"] query_lower
    then Some "surprise"
    else None in
  mkQueryPreferences genres emotion "medium".

(** A float that may be [nan]: every comparison with [nan] is false. *)
Inductive PyFloat : Type :=
| Num (x : R)
| NaN.

(** [a >= b] where [b] may be [nan]. *)
Definition ge_float (a : R) (b : PyFloat) : bool :=
  match b with
  | Num x => Rgeb a x
  | NaN => false
  end.

(** [np.mean(values)]: [nan] on an empty list. *)
Definition np_mean (values : list R) : PyFloat :=
  match values with
  | [] => NaN
  | _ => Num (fold_right Rplus 0 values / INR (List.length values))
  end.

(** [list(set(values))]: Python leaves the order unspecified; here it is
    the order in which the distinct values last occur. *)
Definition list_set (values : list string) : list string :=
  nodup string_dec values.

Record HistoryPreferences : Type := mkHistoryPreferences {
  preferred_categories : list string;
  average_rating_preference : PyFloat;
  total_books_read : nat
}.

(** The result is [None] for the empty dict. *)
Definition _analyze_user_history (user_history : list Book)
  : option HistoryPreferences :=
  match user_history with
  | [] => None
  | _ =>
      let categories :=
        flat_map (fun book =>
                    match simple_categories book with
                    | Some c => if String.eqb c "" then [] else [c]
                    | None => []
                    end)
                 user_history in
      let avg_rating :=
        np_mean
          (flat_map (fun book =>
                       match average_rating book with
                       | Some x => if Reqb x 0 then [] else [x]
                       | None => []
                       end)
                    user_history) in
      Some (mkHistoryPreferences (list_set categories) avg_rating
              (List.length user_history))
  end.

Record CombinedPreferences : Type := mkCombinedPreferences {
  cp_preferred_genres : list string;
  cp_emotion_preference : option string;
  cp_min_rating : PyFloat;
  cp_preferred_categories : list string
}.

Definition _combine_preferences (query_prefs : QueryPreferences)
    (history_prefs : option HistoryPreferences) : CombinedPreferences :=
  let history_categories :=
    match history_prefs with
    | Some h => preferred_categories h
    | None => []
    end in
  let min_rating :=
    match history_prefs with
    | Some h => average_rating_preference h
    | None => Num 3
    end in
  mkCombinedPreferences
    (list_set (preferred_genres query_prefs ++ history_categories)%list)
    (emotion_preference query_prefs)
    min_rating
    history_categories.

Definition _analyze_user_preferences (query : string)
    (user_history : list Book) : CombinedPreferences :=
  let query_prefs := _extract_preferences_from_query query in
  let history_prefs := _analyze_user_history user_history in
  _combine_preferences query_prefs history_prefs.

(** A result dict of the personalised pipeline: a book with the two keys
    the pipeline adds. *)
Record Scored : Type := mkScored {
  book : Book;
  personalization_boost : option R;
  final_score : option R
}.

Definition in_strings (value : option string) (l : list string) : bool :=
  match value with
  | Some x => if in_dec string_dec x l then true else false
  | None => false
  end.

Definition boost_of (preferences : CombinedPreferences) (result : Book) : R :=
  let boost_score := 0 in
  let boost_score :=
    if in_strings (simple_categories result) (cp_preferred_genres preferences)
    then boost_score + 2 / 10 else boost_score in
  let boost_score :=
    if ge_float (get (average_rating result) 0) (cp_min_rating preferences)
    then boost_score + 1 / 10 else boost_score in
  boost_score.

Definition _perform_personalized_search (self : t) (query : string)
    (preferences : CombinedPreferences) (top_k : Z) : M (list Scored) :=
  results <- _perform_semantic_search self query top_k ;;
  let results :=
    map (fun result => mkScored result (Some (boost_of preferences result)) None)
        results in
  ret (py_sorted_desc (fun x => get (personalization_boost x) 0) results).

(** The [user_preferences] dict of a personalised request. *)
Record UserPreferences : Type := mkUserPreferences {
  up_min_rating : option R;
  up_preferred_genres : option (list string)
}.

Definition _apply_personalized_filters (results : list Scored)
    (user_preferences : UserPreferences) : list Scored :=
  let min_rating := get (up_min_rating user_preferences) 3 in
  filter (fun r => Rgeb (get (average_rating (book r)) 0) min_rating) results.

(** The first loop of [_score_personalized_recommendations]. *)
Definition remove_duplicates_scored (results : list Scored)
  : list Isbn * list Scored :=
  fold_left
    (fun st result =>
       let '(seen_isbns, unique_results) := st in
       let isbn := key_of (book result) in
       if truthy isbn
          && negb (if in_dec Isbn_eq_dec isbn seen_isbns then true else false)
       then (isbn :: seen_isbns, (unique_results ++ [result])%list)
       else (seen_isbns, unique_results))
    results ([], []).

Definition _score_personalized_recommendations (results : list Scored)
    (user_preferences : UserPreferences) (top_k : Z) : list Scored :=
  let unique_results := snd (remove_duplicates_scored results) in
  let unique_results :=
    map (fun result =>
           let base_score := get (popularity_score (book result)) 0 in
           let boost_score := get (personalization_boost result) 0 in
           mkScored (book result) (personalization_boost result)
                    (Some (base_score + boost_score)))
        unique_results in
  let sorted_results :=
    py_sorted_desc (fun x => get (final_score x) 0) unique_results in
  py_slice_to sorted_results top_k.

Definition _calculate_personalization_score (recommendations : list Scored)
    (user_preferences : UserPreferences) : R :=
  match recommendations with
  | [] => 0
  | _ =>
      let total_score :=
        fold_left
          (fun total_score rec =>
             let score := 0 in
             let score :=
               if in_strings (simple_categories (book rec))
                    (get (up_preferred_genres user_preferences) [])
               then score + 5 / 10 else score in
             let score :=
               if Rgeb (get (average_rating (book rec)) 0)
                       (get (up_min_rating user_preferences) 3)
               then score + 5 / 10 else score in
             total_score + score)
          recommendations 0 in
      total_score / INR (List.length recommendations)
  end.

Definition _create_error_response (self : t)
    (original_message : AgentMessage) (error_msg : string)
  : M AgentMessage :=
  now <- datetime_now ;;
  BaseAgent.send_message (base self) (sender_id original_message)
    "error_response"
    (ErrorContent error_msg (message_id original_message) now) 3.

Section Dispatch.

(** The replies of these three handlers have shapes that [Content] does
    not carry; [process_message] takes the handlers as they come. *)
Variables _handle_semantic_search _handle_user_preference_analysis
          _handle_personalized_recommendations :
  t -> AgentMessage -> M AgentMessage.

Definition process_message (self : t) (message : AgentMessage)
  : M (option AgentMessage) :=
  try_except
    (if String.eqb (message_type message) "get_recommendations" then
       response <- _handle_recommendation_request self message ;;
       ret (Some response)
     else if String.eqb (message_type message) "semantic_search" then
       response <- _handle_semantic_search self message ;;
       ret (Some response)
     else if String.eqb (message_type message) "analyze_user_preferences" then
       response <- _handle_user_preference_analysis self message ;;
       ret (Some response)
     else if String.eqb (message_type message)
               "get_personalized_recommendations" then
       response <- _handle_personalized_recommendations self message ;;
       ret (Some response)
     else
       logger WARNING ("Unknown message type: " ++ message_type message) ;;;
       ret None)
    (fun e =>
       logger ERROR ("Error processing message: " ++ exn_str e) ;;;
       response <- _create_error_response self message (exn_str e) ;;
       ret (Some response)).

End Dispatch.

End SuggestionAgent.

(** ** The scoring formula as the specification words it

    Section 4.3 of the specification: a weighted sum of normalised
    features, clamped to the unit interval. *)

Module Spec.

Definition clamp01 (x : R) : R := Rmax 0 (Rmin x 1).

Definition log10 (x : R) : R := ln x / ln 10.

(** [avg_rating / 5.0] *)
Definition normalized_rating (book : Book) : R :=
  get (average_rating book) 0 / 5.

(** [min(log10(ratings_count + 1) / 5, 1.0)] *)
Definition normalized_volume (book : Book) : R :=
  Rmin (log10 (IZR (get (ratings_count book) 0%Z + 1)) / 5) 1.

Definition known_categories : list string :=
  ["Fiction"; "Nonfiction"; "Children's Fiction"; "Children's Nonfiction";
   "Other"].

Definition fallback_prior : R := 3 / 10.

Definition category_of (book : Book) : string :=
  get (simple_categories book) "Other".

Definition weighted_sum (prior : string -> R) (book : Book) : R :=
  3 / 10 * normalized_rating book
  + 25 / 100 * normalized_volume book
  + 15 / 100 * prior (category_of book).

Definition popularity_score (prior : string -> R) (book : Book) : R :=
  clamp01 (weighted_sum prior book).

End Spec.

(** * Auxiliary definitions

    Names used by the statements and proofs below: the components of the
    popularity score, views of intermediate results of the pipeline, and
    sample agents, books and messages. *)

Local Open Scope list_scope.

(** A loop that stores [value x] under [key x] for every [x] of a list,
    the shape of [_get_popularity_scores]. *)
Definition collect_into {K V A : Type}
    (K_eq_dec : forall a b : K, {a = b} + {a <> b})
    (key : A -> K) (value : A -> V) (l : list A) (acc : list (K * V))
  : list (K * V) :=
  fold_left (fun d x => dict_set K_eq_dec d (key x) (value x)) l acc.

Definition rating_component (book : Book) : R :=
  let avg_rating := get (average_rating book) 0 in
  if Rlt_dec 0 avg_rating then 3 / 10 * (avg_rating / 5) else 0.

Definition volume_component (book : Book) : R :=
  let count := get (ratings_count book) 0%Z in
  if Z_lt_dec 0 count
  then 25 / 100 * Rmin (np_log10 (IZR (count + 1)) / 5) 1
  else 0.

Definition category_component (book : Book) : R :=
  15 / 100
  * PopularityAnalyzerAgent._get_category_popularity_score
      (get (simple_categories book) "Other").

Definition sample_book : Book :=
  mkBook (Some (IsbnInt 9780000000001)) (Some "A") (Some "Author")
         (Some "Fiction") (Some 4) (Some 0%Z)
         None None None None None None None None.

Definition sample_suggestion_agent : SuggestionAgent.t :=
  SuggestionAgent.mk (BaseAgent.__init__ "suggestion_001" "Suggestion Agent")
    None None None
    (Some (BaseAgent.__init__ "popularity_001" "Popularity Analyzer Agent")).

Module Hub := AgentCommunicationHub.

Definition enqueue (agent : BaseAgent.t) (message : AgentMessage)
  : BaseAgent.t :=
  BaseAgent.mk (BaseAgent.agent_id agent) (BaseAgent.agent_name agent)
    (BaseAgent.message_queue agent ++ [message])
    (BaseAgent.is_active agent) (BaseAgent.capabilities agent).

Definition add_log (w : World) (lvl : LogLevel) (text : string) : World :=
  mkWorld (next_uuid w) (clock w) (log w ++ [mkLog lvl text]).

Definition agent_a : BaseAgent.t := BaseAgent.__init__ "a" "Agent A".
Definition agent_b : BaseAgent.t := BaseAgent.__init__ "b" "Agent B".
Definition agent_c : BaseAgent.t := BaseAgent.__init__ "c" "Agent C".

Definition hub_abc : Hub.t :=
  Hub.mk [("a", agent_a); ("b", agent_b); ("c", agent_c)] [].

Definition ping (receiver : string) : AgentMessage :=
  mkMessage 0 "caller" receiver "ping" (Request empty_request) 0 1.

Definition world0 : World := mkWorld 0 0 [].

(** Between two states of the hub, every agent kept its identity and its
    mailbox only grew. *)
Definition mailboxes_grow (h h' : Hub.t) : Prop :=
  forall k a,
    dict_get string_dec (Hub.agents h) k = Some a ->
    exists a',
      dict_get string_dec (Hub.agents h') k = Some a'
      /\ BaseAgent.agent_id a' = BaseAgent.agent_id a
      /\ exists suffix,
           BaseAgent.message_queue a' = BaseAgent.message_queue a ++ suffix.

(** The body of the loop of [broadcast_message]. *)
Definition broadcast_step (sender mtype : string) (c : Content) (p : Z)
    (item : string * BaseAgent.t) (hub : Hub.t) : M Hub.t :=
  let '(agent_id, agent) := item in
  if string_dec agent_id sender then ret hub
  else
    (message <- BaseAgent.send_message agent agent_id mtype c p ;;
     Hub.route_message hub message)%monad.

(** What holds of a message delivered by a broadcast from [sender]. *)
Definition delivered_ok (sender mtype : string) (c : Content) (p : Z)
    (hub' : Hub.t) (m : AgentMessage) : Prop :=
  sender_id m = receiver_id m
  /\ sender_id m <> sender
  /\ message_type m = mtype /\ content m = c /\ priority m = p
  /\ exists a,
       dict_get string_dec (Hub.agents hub') (receiver_id m) = Some a
       /\ BaseAgent.agent_id a = sender_id m
       /\ In m (BaseAgent.message_queue a).




(** [l1] is [l2] with some elements left out, order kept. *)
Inductive subsequence {A : Type} : list A -> list A -> Prop :=
| subsequence_nil : subsequence [] []
| subsequence_skip (x : A) (l1 l2 : list A) :
    subsequence l1 l2 -> subsequence l1 (x :: l2)
| subsequence_keep (x : A) (l1 l2 : list A) :
    subsequence l1 l2 -> subsequence (x :: l1) (x :: l2).

Definition descending {A : Type} (key : A -> R) (l : list A) : Prop :=
  StronglySorted (fun a b => key b <= key a) l.

Module SA := SuggestionAgent.

Definition seen (isbn : Isbn) (seen_isbns : list Isbn) : bool :=
  if in_dec Isbn_eq_dec isbn seen_isbns then true else false.



Definition score (x : Book) : R := get (popularity_score x) 0.

(** Steps 2 to 4 of [_handle_recommendation_request]: from the retrieved
    candidates to the recommendations of the reply. *)
Definition recommend (self : SA.t) (semantic_results : list Book)
    (filters : Filters.t) (top_k : Z) : list Book :=
  let filtered_results := SA._apply_filters semantic_results filters in
  let popularity_scores := SA._get_popularity_scores self filtered_results in
  SA._synthesize_recommendations filtered_results popularity_scores top_k.

Definition book_A : Book :=
  mkBook (Some (IsbnInt 1)) (Some "A") (Some "Author") (Some "Fiction")
         (Some 4) (Some 0%Z) (Some (1 / 10)) None None None None
         None None None.

Definition book_B : Book :=
  mkBook (Some (IsbnInt 2)) (Some "B") (Some "Author") (Some "Fiction")
         (Some 4) (Some 0%Z) (Some (9 / 10)) None None None None
         None None None.

Definition happy : Filters.t := Filters.mk None None (Some "Happy").

(** Whether [_apply_filters] takes its emotion-tone branch. *)
Definition tone_requested (filters : Filters.t) : bool :=
  SA.truthy_str (Filters.emotion_tone filters)
  && negb (String.eqb (get (Filters.emotion_tone filters) "") "All").

(** The scenario of the specification: A, B and A again. *)
Definition scenario_A : Book :=
  mkBook (Some (IsbnInt 1)) (Some "A") None None (Some (48 / 10)) (Some 500%Z)
         None None None None None None None None.

Definition scenario_B : Book :=
  mkBook (Some (IsbnInt 2)) (Some "B") None None (Some 3) (Some 5%Z)
         None None None None None None None None.

(** ** Names for the further properties *)

Module PA := PopularityAnalyzerAgent.

(** The handler [process_message] selects for a message type, if any. *)
Definition handler_of {pd : Pandas}
    (scoring : BaseAgent.t -> AgentMessage -> M AgentMessage)
    (mtype : string) : option (BaseAgent.t -> AgentMessage -> M AgentMessage) :=
  if String.eqb mtype "analyze_popularity" then
    Some PA._handle_popularity_analysis
  else if String.eqb mtype "detect_trends" then
    Some PA._handle_trend_detection
  else if String.eqb mtype "score_recommendations" then Some scoring
  else if String.eqb mtype "get_popular_books" then
    Some PA._handle_popular_books_request
  else None.

(** An [error_response] to [message] that reports [text]. *)
Definition reports_error (self : BaseAgent.t) (message : AgentMessage)
    (text : string) (response : AgentMessage) : Prop :=
  message_type response = "error_response"
  /\ sender_id response = BaseAgent.agent_id self
  /\ receiver_id response = sender_id message
  /\ priority response = 3%Z
  /\ exists ts,
       content response = ErrorContent text (message_id message) ts.

(** The analysis entry of one book. *)
Definition analyses (book : Book) (entry : BookAnalysis) : Prop :=
  ba_isbn13 entry = isbn13 book
  /\ ba_title entry = title book
  /\ ba_popularity_score entry = PA._calculate_popularity_score book
  /\ ba_trend_score entry = PA._calculate_trend_score book
  /\ ba_overall_score entry
     = (PA._calculate_popularity_score book + PA._calculate_trend_score book)
       / 2.

(** The three row conditions of [_filter_books_by_criteria]. *)
Definition meets_criteria (criteria : Criteria.t) (r : Book) : Prop :=
  (PA.truthy_R (Criteria.min_rating criteria) = true ->
   exists x, average_rating r = Some x
             /\ get (Criteria.min_rating criteria) 0 <= x)
  /\ (PA.truthy_Z (Criteria.min_ratings_count criteria) = true ->
      exists n, ratings_count r = Some n
                /\ (get (Criteria.min_ratings_count criteria) 0 <= n)%Z)
  /\ (PA.truthy_str (Criteria.category criteria) = true ->
      simple_categories r = Some (get (Criteria.category criteria) "")).

(** The number a document's text starts with, when there is one. *)
Definition isbn_of_document (doc : Document) : option Z :=
  match first_word (page_content doc) with
  | Returned word =>
      match py_int (filter_digits word) with
      | Returned n => Some n
      | Raised _ => None
      end
  | Raised _ => None
  end.

(** The first catalogue row with the given number as [isbn13]. *)
Definition row_of (books_df : DataFrame) (n : Z) : option Book :=
  hd_error
    (filter (fun r => match isbn13 r with
                      | Some (IsbnInt z) => (z =? n)%Z
                      | _ => false
                      end)
            (df_rows books_df)).

(** What a document contributes to the search results. *)
Definition book_of_document (books_df : DataFrame) (doc : Document)
  : list Book :=
  match isbn_of_document doc with
  | Some n =>
      match row_of books_df n with
      | Some b => [b]
      | None => []
      end
  | None => []
  end.

Definition found_books (books_df : DataFrame) (docs : list Document)
  : list Book :=
  flat_map (book_of_document books_df) docs.

Definition sample_documents : list Document :=
  [mkDocument "9780000000001 A novel"; mkDocument "no number here";
   mkDocument "   "; mkDocument "978-0-00 unknown"].

Definition sample_store : VectorStore :=
  mkVectorStore true (fun _ _ => Returned sample_documents).

Definition sample_catalogue : DataFrame :=
  mkDataFrame ["isbn13"; "title"; "authors"; "simple_categories";
               "average_rating"; "ratings_count"]
              [sample_book].

Definition sample_searcher : SA.t :=
  SA.mk (BaseAgent.__init__ "suggestion_001" "Suggestion Agent")
    (Some sample_store) (Some sample_catalogue) None
    (Some (BaseAgent.__init__ "popularity_001" "Popularity Analyzer Agent")).

(** Whether [_apply_filters] takes its category branch. *)
Definition category_requested (filters : Filters.t) : bool :=
  SA.truthy_str (Filters.category filters)
  && negb (String.eqb (get (Filters.category filters) "") "All").

(** The row condition of the category filter. *)
Definition category_ok (filters : Filters.t) (r : Book) : bool :=
  if category_requested filters then
    match simple_categories r with
    | Some c => String.eqb c (get (Filters.category filters) "")
    | None => false
    end
  else true.

(** The row condition of the minimum-rating filter. *)
Definition rating_ok (filters : Filters.t) (r : Book) : bool :=
  if SA.truthy_R (Filters.min_rating filters)
  then Rgeb (get (average_rating r) 0) (get (Filters.min_rating filters) 0)
  else true.

(** The value of the emotion field a tone stands for, 0.0 when absent. *)
Definition own_emotion (emotion_tone : string) (r : Book) : R :=
  emotions_get
    (Some (mkEmotions (get (joy r) 0) (get (sadness r) 0) (get (anger r) 0)
             (get (fear r) 0) (get (surprise r) 0)))
    (SA.emotion_mapping emotion_tone) 0.

(** The unique results a deduplication loop collects, for results of
    any shape with a key. *)
Fixpoint unique_by {A : Type} (key : A -> Isbn) (seen_isbns : list Isbn)
    (results : list A) : list A :=
  match results with
  | [] => []
  | result :: rest =>
      let isbn := key result in
      if truthy isbn && negb (seen isbn seen_isbns)
      then result :: unique_by key (isbn :: seen_isbns) rest
      else unique_by key seen_isbns rest
  end.

Definition scored_key (r : SA.Scored) : Isbn := SA.key_of (SA.book r).

Definition boost (r : SA.Scored) : R := get (SA.personalization_boost r) 0.

Definition final (r : SA.Scored) : R := get (SA.final_score r) 0.

(** A result with its final score computed. *)
Definition with_final_score (r : SA.Scored) : SA.Scored :=
  SA.mkScored (SA.book r) (SA.personalization_boost r)
    (Some (get (popularity_score (SA.book r)) 0
           + get (SA.personalization_boost r) 0)).

(** Steps 1 to 4 of [_handle_personalized_recommendations], once its
    arguments are read from the message. *)
Definition personalized_recommendations (self : SA.t) (query : string)
    (user_preferences : SA.UserPreferences) (user_history : list Book)
    (top_k : Z) : M (list SA.Scored) :=
  let preference_analysis := SA._analyze_user_preferences query user_history in
  (semantic_results <-
     SA._perform_personalized_search self query preference_analysis
       (top_k * 2) ;;
   let personalized_results :=
     SA._apply_personalized_filters semantic_results user_preferences in
   ret (SA._score_personalized_recommendations personalized_results
          user_preferences top_k))%monad.

Definition agent_without_popularity : SA.t :=
  SA.mk (BaseAgent.__init__ "suggestion_001" "Suggestion Agent")
    None None None None.


(** The handler the suggestion agent's [process_message] selects. *)
Definition suggestion_handler_of
    (search analysis personalized : SA.t -> AgentMessage -> M AgentMessage)
    (mtype : string) : option (SA.t -> AgentMessage -> M AgentMessage) :=
  if String.eqb mtype "get_recommendations" then
    Some SA._handle_recommendation_request
  else if String.eqb mtype "semantic_search" then Some search
  else if String.eqb mtype "analyze_user_preferences" then Some analysis
  else if String.eqb mtype "get_personalized_recommendations" then
    Some personalized
  else None.

(** Every character of a string satisfies [p]. *)
Fixpoint all_chars (p : ascii -> bool) (s : string) : bool :=
  match s with
  | EmptyString => true
  | String c s' => p c && all_chars p s'
  end.

(** * Properties *)


(** ** Real-number facts *)

Lemma ln_10_pos : 0 < ln 10.
Proof. rewrite <- ln_1. apply ln_increasing; lra. Qed.

Lemma ln_nonneg (x : R) : 1 <= x -> 0 <= ln x.
Proof.
  intros [Hlt | Heq].
  - left. rewrite <- ln_1. apply ln_increasing; lra.
  - subst x. rewrite ln_1. lra.
Qed.

Lemma ln_monotone (x y : R) : 0 < x -> x <= y -> ln x <= ln y.
Proof.
  intros Hx [Hlt | Heq].
  - left. now apply ln_increasing.
  - subst y. lra.
Qed.

Lemma np_log10_1 : np_log10 1 = 0.
Proof. unfold np_log10. rewrite ln_1. lra. Qed.

Lemma np_log10_nonneg (x : R) : 1 <= x -> 0 <= np_log10 x.
Proof.
  intros Hx. unfold np_log10.
  apply Rmult_le_pos; [now apply ln_nonneg |].
  left. apply Rinv_0_lt_compat, ln_10_pos.
Qed.

Lemma np_log10_monotone (x y : R) : 0 < x -> x <= y -> np_log10 x <= np_log10 y.
Proof.
  intros Hx Hxy. unfold np_log10.
  apply Rmult_le_compat_r; [| now apply ln_monotone].
  left. apply Rinv_0_lt_compat, ln_10_pos.
Qed.

Lemma py_min_Rmin (a b : R) : py_min a b = Rmin a b.
Proof.
  unfold py_min, Rmin.
  destruct (Rlt_dec b a), (Rle_dec a b); lra.
Qed.

Lemma Rmin_monotone_l (a b c : R) : a <= b -> Rmin a c <= Rmin b c.
Proof. intros H. apply Rle_min_compat_r, H. Qed.

(** ** The popularity score, unfolded into its three components *)

Lemma popularity_score_components (book : Book) :
  PopularityAnalyzerAgent._calculate_popularity_score book
  = Rmin (rating_component book + volume_component book
          + category_component book) 1.
Proof.
  unfold PopularityAnalyzerAgent._calculate_popularity_score,
    rating_component, volume_component, category_component,
    PopularityAnalyzerAgent.weight_average_rating,
    PopularityAnalyzerAgent.weight_ratings_count,
    PopularityAnalyzerAgent.weight_category_popularity.
  cbv zeta. rewrite !py_min_Rmin.
  destruct (Rlt_dec 0 (get (average_rating book) 0));
    destruct (Z_lt_dec 0%Z (get (ratings_count book) 0%Z));
    f_equal; lra.
Qed.

Lemma category_score_bounds (c : string) :
  3 / 10 <= PopularityAnalyzerAgent._get_category_popularity_score c <= 8 / 10.
Proof.
  unfold PopularityAnalyzerAgent._get_category_popularity_score.
  repeat match goal with |- context [if ?b then _ else _] => destruct b end;
    lra.
Qed.

Lemma rating_component_nonneg (book : Book) : 0 <= rating_component book.
Proof.
  unfold rating_component. cbv zeta.
  destruct (Rlt_dec 0 (get (average_rating book) 0)); lra.
Qed.

Lemma IZR_succ_ge_1 (z : Z) : (0 <= z)%Z -> 1 <= IZR (z + 1).
Proof. intros H. apply IZR_le. lia. Qed.

Lemma volume_component_bounds (book : Book) :
  0 <= volume_component book <= 25 / 100.
Proof.
  unfold volume_component. cbv zeta.
  destruct (Z_lt_dec 0%Z (get (ratings_count book) 0%Z)) as [Hpos | Hneg];
    [| lra].
  assert (H0 : 0 <= np_log10 (IZR (get (ratings_count book) 0%Z + 1))).
  { apply np_log10_nonneg, IZR_succ_ge_1. lia. }
  pose proof (Rmin_r (np_log10 (IZR (get (ratings_count book) 0%Z + 1)) / 5) 1).
  assert (0 <= Rmin (np_log10 (IZR (get (ratings_count book) 0%Z + 1)) / 5) 1).
  { apply Rmin_glb; lra. }
  lra.
Qed.

Lemma rating_component_in_range (book : Book) :
  0 <= get (average_rating book) 0 <= 5 ->
  rating_component book = 3 / 10 * Spec.normalized_rating book
  /\ rating_component book <= 3 / 10.
Proof.
  intros [Hlo Hhi]. unfold rating_component, Spec.normalized_rating. cbv zeta.
  destruct (Rlt_dec 0 (get (average_rating book) 0)); split; lra.
Qed.

Lemma volume_component_in_range (book : Book) :
  (0 <= get (ratings_count book) 0)%Z ->
  volume_component book = 25 / 100 * Spec.normalized_volume book.
Proof.
  intros Hc. unfold volume_component, Spec.normalized_volume. cbv zeta.
  fold (np_log10 (IZR (get (ratings_count book) 0%Z + 1))).
  change (Spec.log10 (IZR (get (ratings_count book) 0%Z + 1)))
    with (np_log10 (IZR (get (ratings_count book) 0%Z + 1))).
  destruct (Z_lt_dec 0%Z (get (ratings_count book) 0%Z)) as [Hpos | Hneg];
    [reflexivity |].
  assert (Hz : get (ratings_count book) 0%Z = 0%Z) by lia.
  rewrite Hz. simpl (0 + 1)%Z. rewrite np_log10_1.
  unfold Rmin. destruct (Rle_dec (0 / 5) 1); lra.
Qed.

Lemma unseen_category_prior (c : string) :
  ~ In c Spec.known_categories ->
  PopularityAnalyzerAgent._get_category_popularity_score c = Spec.fallback_prior.
Proof.
  intros Hc. unfold PopularityAnalyzerAgent._get_category_popularity_score,
    Spec.fallback_prior.
  repeat match goal with
         | |- context [String.eqb c ?k] =>
             destruct (String.eqb_spec c k) as [-> | _];
             [exfalso; apply Hc; simpl; tauto |]
         end.
  reflexivity.
Qed.

(** C1. For a record whose average rating lies in [0, 5] and whose ratings
    count is non-negative, the popularity score is the weighted sum
    0.3 * (rating / 5) + 0.25 * min(log10(count + 1) / 5, 1) + 0.15 * prior,
    clamped to the unit interval; the clamp leaves the sum unchanged, and a
    category outside the table gets the fallback prior 0.3. *)
Theorem popularity_score_is_clamped_weighted_sum (book : Book) :
  0 <= get (average_rating book) 0 <= 5 ->
  (0 <= get (ratings_count book) 0)%Z ->
  let prior := PopularityAnalyzerAgent._get_category_popularity_score in
  PopularityAnalyzerAgent._calculate_popularity_score book
  = Spec.popularity_score prior book
  /\ Spec.popularity_score prior book = Spec.weighted_sum prior book
  /\ 0 <= PopularityAnalyzerAgent._calculate_popularity_score book <= 1
  /\ (forall c, ~ In c Spec.known_categories -> prior c = 3 / 10).
Proof.
  intros Hr Hc prior.
  destruct (rating_component_in_range book Hr) as [Er Hr3].
  pose proof (volume_component_in_range book Hc) as Ev.
  pose proof (volume_component_bounds book) as Hv.
  pose proof (rating_component_nonneg book) as Hr0.
  pose proof (category_score_bounds (Spec.category_of book)) as Hcat.
  assert (Esum : rating_component book + volume_component book
                 + category_component book = Spec.weighted_sum prior book).
  { unfold Spec.weighted_sum, category_component. rewrite Er, Ev.
    reflexivity. }
  assert (Hsum : 0 <= Spec.weighted_sum prior book <= 1).
  { rewrite <- Esum. unfold category_component.
    fold (Spec.category_of book). lra. }
  assert (Eclamp : Spec.popularity_score prior book
                   = Spec.weighted_sum prior book).
  { unfold Spec.popularity_score, Spec.clamp01.
    rewrite Rmin_left by lra. rewrite Rmax_right by lra. reflexivity. }
  assert (Ecode : PopularityAnalyzerAgent._calculate_popularity_score book
                  = Spec.weighted_sum prior book).
  { rewrite popularity_score_components, Esum. rewrite Rmin_left by lra.
    reflexivity. }
  repeat split.
  - now rewrite Ecode, Eclamp.
  - exact Eclamp.
  - rewrite Ecode. lra.
  - rewrite Ecode. lra.
  - intros c Hn. unfold prior. rewrite (unseen_category_prior c Hn).
    reflexivity.
Qed.

Lemma popularity_score_is_clamped_weighted_sum_witness :
  PopularityAnalyzerAgent._calculate_popularity_score sample_book
  = Spec.popularity_score
      PopularityAnalyzerAgent._get_category_popularity_score sample_book.
Proof.
  apply (popularity_score_is_clamped_weighted_sum sample_book); simpl.
  - lra.
  - lia.
Defined.

(** ** Range and monotonicity *)

Lemma popularity_score_range (book : Book) :
  0 <= PopularityAnalyzerAgent._calculate_popularity_score book <= 1.
Proof.
  rewrite popularity_score_components.
  pose proof (rating_component_nonneg book).
  pose proof (volume_component_bounds book).
  pose proof (category_score_bounds (get (simple_categories book) "Other")).
  split.
  - apply Rmin_glb; [unfold category_component; lra | lra].
  - apply Rmin_r.
Qed.

Lemma rating_component_monotone (book : Book) (r1 r2 : R) :
  r1 <= r2 ->
  rating_component (set_average_rating book r1)
  <= rating_component (set_average_rating book r2).
Proof.
  intros H. unfold rating_component. simpl.
  destruct (Rlt_dec 0 r1), (Rlt_dec 0 r2); lra.
Qed.

Lemma volume_component_monotone (book : Book) (c1 c2 : Z) :
  (c1 <= c2)%Z ->
  volume_component (set_ratings_count book c1)
  <= volume_component (set_ratings_count book c2).
Proof.
  intros H. unfold volume_component. simpl.
  destruct (Z_lt_dec 0%Z c1) as [H1 | H1], (Z_lt_dec 0%Z c2) as [H2 | H2];
    try lia.
  - apply Rmult_le_compat_l; [lra |].
    apply Rmin_monotone_l.
    apply Rmult_le_compat_r; [lra |].
    apply np_log10_monotone; [apply IZR_lt; lia | apply IZR_le; lia].
  - assert (0 <= np_log10 (IZR (c2 + 1))).
    { apply np_log10_nonneg, IZR_succ_ge_1. lia. }
    assert (0 <= Rmin (np_log10 (IZR (c2 + 1)) / 5) 1)
      by (apply Rmin_glb; lra).
    lra.
  - lra.
Qed.

(** C6. The popularity score of every record lies in [0, 1]; raising the
    average rating of a record, or its ratings count, with every other
    field kept, never lowers the score. *)
Theorem popularity_score_bounded_and_monotone :
  (forall book : Book,
      0 <= PopularityAnalyzerAgent._calculate_popularity_score book <= 1)
  /\ (forall (book : Book) (r1 r2 : R),
         r1 <= r2 ->
         PopularityAnalyzerAgent._calculate_popularity_score
           (set_average_rating book r1)
         <= PopularityAnalyzerAgent._calculate_popularity_score
              (set_average_rating book r2))
  /\ (forall (book : Book) (c1 c2 : Z),
         (c1 <= c2)%Z ->
         PopularityAnalyzerAgent._calculate_popularity_score
           (set_ratings_count book c1)
         <= PopularityAnalyzerAgent._calculate_popularity_score
              (set_ratings_count book c2)).
Proof.
  split; [exact popularity_score_range | split].
  - intros book r1 r2 H. rewrite !popularity_score_components.
    apply Rmin_monotone_l.
    pose proof (rating_component_monotone book r1 r2 H).
    unfold volume_component, category_component in *. simpl. lra.
  - intros book c1 c2 H. rewrite !popularity_score_components.
    apply Rmin_monotone_l.
    pose proof (volume_component_monotone book c1 c2 H).
    unfold rating_component, category_component in *. simpl. lra.
Qed.

Lemma popularity_score_bounded_and_monotone_witness :
  PopularityAnalyzerAgent._calculate_popularity_score
    (set_average_rating sample_book 3)
  <= PopularityAnalyzerAgent._calculate_popularity_score
       (set_average_rating sample_book 4)
  /\ PopularityAnalyzerAgent._calculate_popularity_score
       (set_ratings_count sample_book 10)
     <= PopularityAnalyzerAgent._calculate_popularity_score
          (set_ratings_count sample_book 500).
Proof.
  split.
  - apply (proj1 (proj2 popularity_score_bounded_and_monotone)). lra.
  - apply (proj2 (proj2 popularity_score_bounded_and_monotone)). lia.
Defined.

(** ** Dictionaries *)

Section DictFacts.
Context {K V : Type}.
Variable K_eq_dec : forall a b : K, {a = b} + {a <> b}.

Lemma dict_get_set_same (d : list (K * V)) (k : K) (v : V) :
  dict_get K_eq_dec (dict_set K_eq_dec d k v) k = Some v.
Proof.
  induction d as [| [k' v'] d IH]; simpl.
  - destruct (K_eq_dec k k); congruence.
  - destruct (K_eq_dec k k') as [E | N]; simpl.
    + destruct (K_eq_dec k k'); congruence.
    + destruct (K_eq_dec k k'); congruence.
Qed.

Lemma dict_get_set_other (d : list (K * V)) (k k' : K) (v : V) :
  k <> k' ->
  dict_get K_eq_dec (dict_set K_eq_dec d k' v) k = dict_get K_eq_dec d k.
Proof.
  intros Hne. induction d as [| [k0 v0] d IH]; simpl.
  - destruct (K_eq_dec k k'); congruence.
  - destruct (K_eq_dec k' k0) as [E | N]; simpl.
    + subst k0. destruct (K_eq_dec k k'); congruence.
    + destruct (K_eq_dec k k0); congruence.
Qed.

Lemma dict_keys_set_present (d : list (K * V)) (k : K) (v : V) :
  In k (dict_keys d) -> dict_keys (dict_set K_eq_dec d k v) = dict_keys d.
Proof.
  unfold dict_keys. induction d as [| [k0 v0] d IH]; simpl; [tauto |].
  intros Hin. destruct (K_eq_dec k k0) as [E | N]; simpl; [reflexivity |].
  f_equal. apply IH. destruct Hin; congruence.
Qed.

Lemma dict_get_Some_iff_key (d : list (K * V)) (k : K) :
  In k (dict_keys d) <-> exists v, dict_get K_eq_dec d k = Some v.
Proof.
  unfold dict_keys. induction d as [| [k0 v0] d IH]; simpl.
  - split; [tauto | intros [v H]; discriminate].
  - destruct (K_eq_dec k k0) as [E | N].
    + split; [eauto | intros _; left; congruence].
    + rewrite <- IH. split; [intros [H | H]; congruence | tauto].
Qed.

Section Collect.
Context {A : Type}.
Variables (key : A -> K) (value : A -> V).

Lemma collect_absent (l : list A) (acc : list (K * V)) (k : K) :
  ~ In k (map key l) ->
  dict_get K_eq_dec (collect_into K_eq_dec key value l acc) k
  = dict_get K_eq_dec acc k.
Proof.
  unfold collect_into. revert acc.
  induction l as [| x l IH]; intros acc Hn; simpl; [reflexivity |].
  simpl in Hn. rewrite IH by tauto.
  apply dict_get_set_other. intros E. apply Hn. now left.
Qed.

Lemma collect_present (l : list A) (acc : list (K * V)) (x : A) :
  NoDup (map key l) -> In x l ->
  dict_get K_eq_dec (collect_into K_eq_dec key value l acc) (key x)
  = Some (value x).
Proof.
  revert acc. induction l as [| y l IH]; intros acc Hnd Hin;
    [contradiction |].
  simpl in Hnd. inversion Hnd as [| ? ? Hny Hnd']; subst.
  change (collect_into K_eq_dec key value (y :: l) acc)
    with (collect_into K_eq_dec key value l
            (dict_set K_eq_dec acc (key y) (value y))).
  destruct Hin as [-> | Hin].
  - rewrite collect_absent by exact Hny.
    apply dict_get_set_same.
  - apply IH; assumption.
Qed.
End Collect.
End DictFacts.

(** ** The score used inside the suggestion pipeline *)

Lemma simple_score_sample :
  SuggestionAgent._calculate_simple_popularity_score sample_book = 48 / 100.
Proof.
  unfold SuggestionAgent._calculate_simple_popularity_score, sample_book.
  simpl. rewrite np_log10_1, py_min_Rmin.
  rewrite Rmin_left by lra. lra.
Qed.

Lemma popularity_score_sample :
  PopularityAnalyzerAgent._calculate_popularity_score sample_book = 36 / 100.
Proof.
  rewrite popularity_score_components.
  unfold rating_component, volume_component, category_component, sample_book.
  unfold PopularityAnalyzerAgent._get_category_popularity_score. simpl.
  destruct (Rlt_dec 0 4); [| exfalso; lra].
  rewrite Rmin_left by lra. lra.
Qed.

(** C2 as stated fails: on a record rated 4.0 with no ratings in category
    Fiction the pipeline's score is 0.48 and the popularity agent's 0.36. *)
Lemma pipeline_score_differs_from_popularity_score :
  SuggestionAgent._calculate_simple_popularity_score sample_book
  <> PopularityAnalyzerAgent._calculate_popularity_score sample_book.
Proof. rewrite simple_score_sample, popularity_score_sample. lra. Qed.

(** C2, amended. With a popularity agent attached and candidates of distinct
    keys, the score the pipeline records for a candidate is
    0.6 * (rating / 5) + 0.4 * min(log10(count + 1) / 5, 1): the rating and
    volume features are normalised as in the popularity agent (base-10
    logarithm, offset 1), the weights differ, and there is neither a
    category prior nor a clamp.  The ratings count is taken non-negative,
    where the logarithm is defined. *)
Theorem pipeline_score_is_simple_weighted_sum
    (self : SuggestionAgent.t) (results : list Book) (book : Book) :
  SuggestionAgent.popularity_agent self <> None ->
  NoDup (map SuggestionAgent.key_of results) ->
  In book results ->
  (0 <= get (ratings_count book) 0)%Z ->
  dict_get Isbn_eq_dec (SuggestionAgent._get_popularity_scores self results)
           (SuggestionAgent.key_of book)
  = Some (6 / 10 * Spec.normalized_rating book
          + 4 / 10 * Spec.normalized_volume book).
Proof.
  intros Hagent Hnd Hin _.
  unfold SuggestionAgent._get_popularity_scores.
  destruct (SuggestionAgent.popularity_agent self); [| congruence].
  change (fold_left _ results [])
    with (collect_into Isbn_eq_dec SuggestionAgent.key_of
            SuggestionAgent._calculate_simple_popularity_score results []).
  rewrite (collect_present Isbn_eq_dec SuggestionAgent.key_of
             SuggestionAgent._calculate_simple_popularity_score
             results [] book Hnd Hin).
  f_equal. unfold SuggestionAgent._calculate_simple_popularity_score,
    Spec.normalized_rating, Spec.normalized_volume. cbv zeta.
  rewrite py_min_Rmin.
  change (Spec.log10 (IZR (get (ratings_count book) 0%Z + 1)))
    with (np_log10 (IZR (get (ratings_count book) 0%Z + 1))).
  lra.
Qed.

Lemma pipeline_score_is_simple_weighted_sum_witness :
  dict_get Isbn_eq_dec
    (SuggestionAgent._get_popularity_scores sample_suggestion_agent
       [sample_book])
    (SuggestionAgent.key_of sample_book)
  = Some (6 / 10 * Spec.normalized_rating sample_book
          + 4 / 10 * Spec.normalized_volume sample_book).
Proof.
  apply (pipeline_score_is_simple_weighted_sum sample_suggestion_agent
           [sample_book] sample_book).
  - simpl. discriminate.
  - simpl. constructor; [simpl; tauto | constructor].
  - simpl. now left.
  - simpl. lia.
Defined.

(** ** The communication hub *)

Lemma route_message_registered
    (self : Hub.t) (message : AgentMessage) (agent : BaseAgent.t) (w : World) :
  dict_get string_dec (Hub.agents self) (receiver_id message) = Some agent ->
  Hub.route_message self message w
  = (Returned
       (Hub.mk (dict_set string_dec (Hub.agents self) (receiver_id message)
                  (enqueue agent message))
               (Hub.message_history self ++ [message])),
     add_log w INFO
       ("Agent " ++ BaseAgent.agent_name agent ++ " received "
        ++ message_type message ++ " from " ++ sender_id message)%string).
Proof.
  intros Hget.
  unfold Hub.route_message, dict_contains, Hub.agents_getitem.
  rewrite Hget. reflexivity.
Qed.

Lemma route_message_unregistered
    (self : Hub.t) (message : AgentMessage) (w : World) :
  dict_get string_dec (Hub.agents self) (receiver_id message) = None ->
  Hub.route_message self message w
  = (Returned self,
     add_log w ERROR
       ("Agent " ++ receiver_id message ++ " not found")%string).
Proof.
  intros Hget. unfold Hub.route_message, dict_contains.
  rewrite Hget. reflexivity.
Qed.

Lemma dict_contains_iff_key {V : Type} (d : list (string * V)) (k : string) :
  dict_contains string_dec d k = true <-> In k (dict_keys d).
Proof.
  unfold dict_contains. rewrite (dict_get_Some_iff_key string_dec).
  destruct (dict_get string_dec d k); split; intros H; eauto;
    try discriminate.
  destruct H; discriminate.
Qed.

Lemma dict_contains_same_keys {V : Type} (d d' : list (string * V)) (k : string) :
  dict_keys d = dict_keys d' ->
  dict_contains string_dec d k = dict_contains string_dec d' k.
Proof.
  intros E.
  destruct (dict_contains string_dec d k) eqn:H1,
           (dict_contains string_dec d' k) eqn:H2; try reflexivity.
  - apply dict_contains_iff_key in H1. rewrite E in H1.
    apply dict_contains_iff_key in H1. congruence.
  - apply dict_contains_iff_key in H2. rewrite <- E in H2.
    apply dict_contains_iff_key in H2. congruence.
Qed.

(** Routing never raises and never changes the set of registered keys. *)
Lemma route_message_returns (self : Hub.t) (message : AgentMessage) (w : World) :
  exists hub' w',
    Hub.route_message self message w = (Returned hub', w')
    /\ dict_keys (Hub.agents hub') = dict_keys (Hub.agents self)
    /\ Hub.message_history hub'
       = Hub.message_history self
         ++ (if dict_contains string_dec (Hub.agents self) (receiver_id message)
             then [message] else []).
Proof.
  destruct (dict_get string_dec (Hub.agents self) (receiver_id message))
    as [agent |] eqn:Hget.
  - rewrite (route_message_registered self message agent w Hget).
    eexists _, _. split; [reflexivity |]. simpl. split.
    + apply dict_keys_set_present.
      apply (dict_get_Some_iff_key string_dec). eauto.
    + unfold dict_contains. rewrite Hget. reflexivity.
  - rewrite (route_message_unregistered self message w Hget).
    eexists _, _. split; [reflexivity |]. split; [reflexivity |].
    unfold dict_contains. rewrite Hget. now rewrite app_nil_r.
Qed.

(** C7. Routing to an identity that is not registered returns normally
    with the hub (agents, mailboxes and history) exactly as it was and no
    message created; routing to a registered identity returns normally,
    appends the message to the receiver's mailbox and one entry to the
    history, and leaves every other agent as it was. *)
Theorem route_message_delivers_or_drops
    (self : Hub.t) (message : AgentMessage) (w : World) :
  (dict_contains string_dec (Hub.agents self) (receiver_id message) = false ->
   exists w',
     Hub.route_message self message w = (Returned self, w')
     /\ next_uuid w' = next_uuid w /\ clock w' = clock w)
  /\ (dict_contains string_dec (Hub.agents self) (receiver_id message) = true ->
      exists agent hub' w',
        dict_get string_dec (Hub.agents self) (receiver_id message)
        = Some agent
        /\ Hub.route_message self message w = (Returned hub', w')
        /\ Hub.message_history hub' = Hub.message_history self ++ [message]
        /\ (exists agent',
               dict_get string_dec (Hub.agents hub') (receiver_id message)
               = Some agent'
               /\ BaseAgent.message_queue agent'
                  = BaseAgent.message_queue agent ++ [message])
        /\ (forall k, k <> receiver_id message ->
                      dict_get string_dec (Hub.agents hub') k
                      = dict_get string_dec (Hub.agents self) k)).
Proof.
  unfold dict_contains.
  destruct (dict_get string_dec (Hub.agents self) (receiver_id message))
    as [agent |] eqn:Hget; split; intros H; try discriminate.
  - exists agent. rewrite (route_message_registered self message agent w Hget).
    eexists _, _. repeat split.
    + exists (enqueue agent message). split; [| reflexivity].
      simpl. apply dict_get_set_same.
    + intros k Hk. simpl. now apply dict_get_set_other.
  - rewrite (route_message_unregistered self message w Hget).
    eexists. repeat split.
Qed.

(** ** The history is an append-only log *)

Lemma route_all_history (messages : list AgentMessage) :
  forall (self : Hub.t) (w : World),
  exists hub' w',
    Hub.route_all self messages w = (Returned hub', w')
    /\ dict_keys (Hub.agents hub') = dict_keys (Hub.agents self)
    /\ Hub.message_history hub'
       = Hub.message_history self
         ++ filter (fun m => dict_contains string_dec (Hub.agents self)
                               (receiver_id m))
                   messages.
Proof.
  induction messages as [| m messages IH]; intros self w.
  - exists self, w. simpl. repeat split. now rewrite app_nil_r.
  - destruct (route_message_returns self m w) as (h1 & w1 & E1 & K1 & H1).
    destruct (IH h1 w1) as (h2 & w2 & E2 & K2 & H2).
    exists h2, w2. split; [| split].
    + unfold Hub.route_all in *. simpl. unfold bind at 1. rewrite E1.
      exact E2.
    + congruence.
    + rewrite H2, H1. simpl.
      rewrite (filter_ext _ (fun m0 => dict_contains string_dec
                                         (Hub.agents self) (receiver_id m0)))
        by (intros a; now apply dict_contains_same_keys).
      destruct (dict_contains string_dec (Hub.agents self) (receiver_id m));
        now rewrite <- app_assoc.
Qed.

(** C3 as stated fails: no capacity bounds the history.  Routing
    [capacity + 1] messages to a registered agent leaves [capacity + 1]
    entries. *)
Lemma history_has_no_capacity :
  ~ exists capacity : nat, Hub.history_bounded_by capacity.
Proof.
  intros [capacity Hbound].
  destruct (route_all_history (repeat (ping "a") (S capacity)) hub_abc world0)
    as (hub' & w' & Erun & _ & Ehist).
  specialize (Hbound hub_abc _ world0 hub' w' eq_refl Erun).
  rewrite Ehist in Hbound. simpl Hub.message_history in Hbound.
  rewrite app_nil_l in Hbound.
  rewrite (proj2 (filter_ext_in_iff _ (fun _ => true) _)) in Hbound.
  - assert (E : forall (A : Type) (l : list A), filter (fun _ => true) l = l).
    { intros A l. induction l; simpl; congruence. }
    rewrite E, repeat_length in Hbound. lia.
  - intros m Hm. apply repeat_spec in Hm. subst m. reflexivity.
Qed.

(** C3, amended. The history is an append-only log without a capacity:
    after any sequence of routing calls it is the former history followed
    by exactly the messages whose receiver was registered, in the order
    they were routed; no entry is evicted. *)
Theorem history_is_append_only
    (self : Hub.t) (messages : list AgentMessage) (w : World) :
  exists hub' w',
    Hub.route_all self messages w = (Returned hub', w')
    /\ Hub.message_history hub'
       = Hub.message_history self
         ++ filter (fun m => dict_contains string_dec (Hub.agents self)
                               (receiver_id m))
                   messages
    /\ List.length (Hub.message_history hub')
       = (List.length (Hub.message_history self)
          + List.length
              (filter (fun m => dict_contains string_dec (Hub.agents self)
                                  (receiver_id m))
                      messages))%nat.
Proof.
  destruct (route_all_history messages self w) as (hub' & w' & E & _ & H).
  exists hub', w'. repeat split; [exact E | exact H |].
  rewrite H. apply length_app.
Qed.

Lemma route_message_delivers_or_drops_witness :
  (exists w',
      Hub.route_message hub_abc (ping "nobody") world0 = (Returned hub_abc, w')
      /\ next_uuid w' = next_uuid world0 /\ clock w' = clock world0)
  /\ (exists agent hub' w',
         dict_get string_dec (Hub.agents hub_abc) (receiver_id (ping "b"))
         = Some agent
         /\ Hub.route_message hub_abc (ping "b") world0 = (Returned hub', w')
         /\ Hub.message_history hub'
            = Hub.message_history hub_abc ++ [ping "b"]
         /\ (exists agent',
                dict_get string_dec (Hub.agents hub') (receiver_id (ping "b"))
                = Some agent'
                /\ BaseAgent.message_queue agent'
                   = BaseAgent.message_queue agent ++ [ping "b"])
         /\ (forall k, k <> receiver_id (ping "b") ->
                       dict_get string_dec (Hub.agents hub') k
                       = dict_get string_dec (Hub.agents hub_abc) k)).
Proof.
  split.
  - apply (proj1 (route_message_delivers_or_drops hub_abc (ping "nobody")
                    world0)).
    reflexivity.
  - apply (proj2 (route_message_delivers_or_drops hub_abc (ping "b") world0)).
    reflexivity.
Defined.

(** ** Broadcast *)

Lemma mailboxes_grow_refl (h : Hub.t) : mailboxes_grow h h.
Proof.
  intros k a H. exists a. repeat split; [exact H |].
  exists []. now rewrite app_nil_r.
Qed.

Lemma mailboxes_grow_trans (h1 h2 h3 : Hub.t) :
  mailboxes_grow h1 h2 -> mailboxes_grow h2 h3 -> mailboxes_grow h1 h3.
Proof.
  intros H12 H23 k a Ha.
  destruct (H12 k a Ha) as (a2 & Ha2 & Hid2 & s2 & Hq2).
  destruct (H23 k a2 Ha2) as (a3 & Ha3 & Hid3 & s3 & Hq3).
  exists a3. repeat split; [exact Ha3 | congruence |].
  exists (s2 ++ s3). rewrite Hq3, Hq2. now rewrite app_assoc.
Qed.

Lemma mailboxes_grow_route
    (h : Hub.t) (m : AgentMessage) (agent : BaseAgent.t) :
  dict_get string_dec (Hub.agents h) (receiver_id m) = Some agent ->
  mailboxes_grow h
    (Hub.mk (dict_set string_dec (Hub.agents h) (receiver_id m)
               (enqueue agent m))
            (Hub.message_history h ++ [m])).
Proof.
  intros Hget k a Ha. simpl.
  destruct (string_dec k (receiver_id m)) as [-> | Hne].
  - exists (enqueue agent m). rewrite dict_get_set_same.
    assert (a = agent) by congruence. subst a.
    repeat split. exists [m]. reflexivity.
  - exists a. rewrite dict_get_set_other by exact Hne.
    repeat split; [exact Ha |]. exists []. now rewrite app_nil_r.
Qed.

Lemma send_message_eq (agent : BaseAgent.t) (receiver mtype : string)
    (c : Content) (p : Z) (w : World) :
  BaseAgent.send_message agent receiver mtype c p w
  = (Returned (mkMessage (next_uuid w) (BaseAgent.agent_id agent) receiver
                 mtype c (clock w) p),
     mkWorld (N.succ (next_uuid w)) (N.succ (clock w))
       (log w ++ [mkLog INFO ("Agent " ++ BaseAgent.agent_name agent
                              ++ " sending " ++ mtype ++ " to "
                              ++ receiver)%string])).
Proof. reflexivity. Qed.

Section Broadcast.
Variables (sender mtype : string) (c : Content) (p : Z).

Lemma delivered_ok_grow (h h' : Hub.t) (m : AgentMessage) :
  mailboxes_grow h h' -> delivered_ok sender mtype c p h m ->
  delivered_ok sender mtype c p h' m.
Proof.
  intros Hg (H1 & H2 & H3 & H4 & H5 & a & Ha & Hid & Hin).
  destruct (Hg _ _ Ha) as (a' & Ha' & Hid' & suffix & Hq).
  repeat split; try assumption.
  exists a'. repeat split; [exact Ha' | congruence |].
  rewrite Hq. apply in_or_app. now left.
Qed.

Lemma broadcast_loop (items : list (string * BaseAgent.t)) :
  forall (h : Hub.t) (w : World),
    Forall (fun item =>
              BaseAgent.agent_id (snd item) = fst item
              /\ exists a0,
                   dict_get string_dec (Hub.agents h) (fst item) = Some a0
                   /\ BaseAgent.agent_id a0 = fst item)
           items ->
    exists hub' w' delivered,
      for_each items (broadcast_step sender mtype c p) h w = (Returned hub', w')
      /\ mailboxes_grow h hub'
      /\ Hub.message_history hub' = Hub.message_history h ++ delivered
      /\ map receiver_id delivered
         = filter (fun k => negb (String.eqb k sender)) (map fst items)
      /\ Forall (delivered_ok sender mtype c p hub') delivered.
Proof.
  induction items as [| [k a] items IH]; intros h w Hitems.
  - exists h, w, []. simpl. repeat split.
    + apply mailboxes_grow_refl.
    + now rewrite app_nil_r.
    + constructor.
  - inversion Hitems as [| ? ? [Hka (a0 & Hget & Hid0)] Hrest]; subst.
    simpl in Hka, Hget, Hid0.
    assert (Hstep : forall h1,
               mailboxes_grow h h1 ->
               Forall (fun item =>
                         BaseAgent.agent_id (snd item) = fst item
                         /\ exists a1,
                              dict_get string_dec (Hub.agents h1) (fst item)
                              = Some a1
                              /\ BaseAgent.agent_id a1 = fst item)
                      items).
    { intros h1 Hg. eapply Forall_impl; [| exact Hrest].
      intros item [Hi (a1 & Hg1 & Hid1)]. split; [exact Hi |].
      destruct (Hg _ _ Hg1) as (a2 & Hg2 & Hid2 & _).
      exists a2. split; [exact Hg2 | congruence]. }
    simpl for_each. unfold bind at 1. unfold broadcast_step at 1.
    destruct (string_dec k sender) as [-> | Hne].
    + destruct (IH h w (Hstep h (mailboxes_grow_refl h)))
        as (h' & w' & delivered & E & Hg & Hh & Hm & Hok).
      exists h', w', delivered. unfold ret at 1.
      repeat split; try assumption.
      simpl. rewrite String.eqb_refl. exact Hm.
    + unfold bind at 1. rewrite send_message_eq.
      set (m := mkMessage (next_uuid w) (BaseAgent.agent_id a) k mtype c
                  (clock w) p).
      set (w1 := mkWorld _ _ _).
      assert (Hget' : dict_get string_dec (Hub.agents h) (receiver_id m)
                      = Some a0) by exact Hget.
      rewrite (route_message_registered h m a0 w1 Hget').
      set (h1 := Hub.mk _ _).
      pose proof (mailboxes_grow_route h m a0 Hget') as Hg1.
      fold h1 in Hg1.
      destruct (IH h1 (add_log w1 INFO
                         ("Agent " ++ BaseAgent.agent_name a0 ++ " received "
                          ++ message_type m ++ " from "
                          ++ sender_id m)%string)
                   (Hstep h1 Hg1))
        as (h' & w' & delivered & E & Hg & Hh & Hm & Hok).
      exists h', w', (m :: delivered).
      repeat split.
      * exact E.
      * eapply mailboxes_grow_trans; eassumption.
      * rewrite Hh. unfold h1. simpl. now rewrite <- app_assoc.
      * simpl. destruct (String.eqb_spec k sender) as [-> | _];
          [congruence |]. simpl. now rewrite Hm.
      * constructor; [| exact Hok].
        apply (delivered_ok_grow h1 h' m Hg).
        unfold delivered_ok, m. simpl. repeat split; try congruence.
        exists (enqueue a0 m). unfold h1. simpl.
        rewrite dict_get_set_same. repeat split; [congruence |].
        apply in_or_app. right. now left.
Qed.
End Broadcast.

Lemma filter_out_absent (x : string) (l : list string) :
  ~ In x l -> filter (fun k => negb (String.eqb k x)) l = l.
Proof.
  induction l as [| y l IH]; intros Hn; simpl; [reflexivity |].
  destruct (String.eqb_spec y x) as [-> | _]; simpl.
  - exfalso. apply Hn. now left.
  - f_equal. apply IH. intros H. apply Hn. now right.
Qed.

Lemma filter_out_member_length (x : string) (l : list string) :
  NoDup l -> In x l ->
  List.length (filter (fun k => negb (String.eqb k x)) l)
  = (List.length l - 1)%nat.
Proof.
  induction l as [| y l IH]; intros Hnd Hin; [contradiction |].
  inversion Hnd as [| ? ? Hny Hnd']; subst. simpl.
  destruct (String.eqb_spec y x) as [-> | Hne]; simpl.
  - rewrite filter_out_absent by exact Hny. lia.
  - destruct Hin as [-> | Hin]; [congruence |].
    rewrite IH by assumption.
    destruct l; [contradiction | simpl; lia].
Qed.

Lemma dict_get_agent_id (d : list (string * BaseAgent.t)) :
  Forall (fun item => BaseAgent.agent_id (snd item) = fst item) d ->
  forall k a, dict_get string_dec d k = Some a -> BaseAgent.agent_id a = k.
Proof.
  induction 1 as [| [k1 a1] d Hhead Htail IH]; intros k a Hget;
    [discriminate |].
  simpl in Hget, Hhead.
  destruct (string_dec k k1) as [-> | Hne]; [congruence | now apply IH].
Qed.

(** C10. A broadcast from [sender] over a well-formed hub returns normally
    and delivers one message to every registered agent other than
    [sender], so [n - 1] messages when [sender] is one of the [n]
    registered agents.  Each delivered message was built by its receiver's
    own [send_message]: its [sender_id] is the receiver's identity, never
    [sender], and it sits in that receiver's mailbox and in the history. *)
Theorem broadcast_messages_name_receiver_as_sender
    (self : Hub.t) (sender mtype : string) (c : Content) (p : Z) (w : World) :
  Hub.well_formed self ->
  exists hub' w' delivered,
    Hub.broadcast_message self sender mtype c p w = (Returned hub', w')
    /\ Hub.message_history hub' = Hub.message_history self ++ delivered
    /\ map receiver_id delivered
       = filter (fun k => negb (String.eqb k sender))
                (dict_keys (Hub.agents self))
    /\ (In sender (dict_keys (Hub.agents self)) ->
        List.length delivered = (List.length (Hub.agents self) - 1)%nat)
    /\ Forall (fun m =>
                 sender_id m = receiver_id m
                 /\ sender_id m <> sender
                 /\ message_type m = mtype /\ content m = c /\ priority m = p
                 /\ exists a,
                      dict_get string_dec (Hub.agents hub') (receiver_id m)
                      = Some a
                      /\ BaseAgent.agent_id a = sender_id m
                      /\ In m (BaseAgent.message_queue a))
              delivered.
Proof.
  intros [Hnd Hids].
  assert (Hitems :
            Forall (fun item =>
                      BaseAgent.agent_id (snd item) = fst item
                      /\ exists a0,
                           dict_get string_dec (Hub.agents self) (fst item)
                           = Some a0
                           /\ BaseAgent.agent_id a0 = fst item)
                   (Hub.agents self)).
  { apply Forall_forall. intros [k a] Hin.
    split; [apply (proj1 (Forall_forall _ _) Hids _ Hin) |].
    simpl. assert (Hk : In k (dict_keys (Hub.agents self))).
    { unfold dict_keys. change k with (fst (k, a)). now apply in_map. }
    apply (dict_get_Some_iff_key string_dec) in Hk. destruct Hk as [a0 Ha0].
    exists a0. split; [exact Ha0 |].
    apply (dict_get_agent_id _ Hids _ _ Ha0). }
  destruct (broadcast_loop sender mtype c p (Hub.agents self) self w Hitems)
    as (hub' & w' & delivered & E & _ & Hh & Hm & Hok).
  exists hub', w', delivered. repeat split.
  - exact E.
  - exact Hh.
  - exact Hm.
  - intros Hin. rewrite <- (length_map receiver_id), Hm.
    pose proof (filter_out_member_length sender _ Hnd Hin) as Hlen.
    unfold dict_keys in Hlen. rewrite Hlen. now rewrite length_map.
  - exact Hok.
Qed.

Lemma hub_abc_well_formed : Hub.well_formed hub_abc.
Proof.
  split.
  - simpl. repeat constructor; simpl; intuition discriminate.
  - repeat constructor.
Qed.

Lemma broadcast_messages_name_receiver_as_sender_witness :
  exists hub' w' delivered,
    Hub.broadcast_message hub_abc "a" "notice" (Request empty_request) 1 world0
    = (Returned hub', w')
    /\ Hub.message_history hub' = Hub.message_history hub_abc ++ delivered
    /\ map receiver_id delivered
       = filter (fun k => negb (String.eqb k "a"))
                (dict_keys (Hub.agents hub_abc))
    /\ (In "a" (dict_keys (Hub.agents hub_abc)) ->
        List.length delivered = (List.length (Hub.agents hub_abc) - 1)%nat)
    /\ Forall (fun m =>
                 sender_id m = receiver_id m
                 /\ sender_id m <> "a"
                 /\ message_type m = "notice"
                 /\ content m = Request empty_request /\ priority m = 1%Z
                 /\ exists a,
                      dict_get string_dec (Hub.agents hub') (receiver_id m)
                      = Some a
                      /\ BaseAgent.agent_id a = sender_id m
                      /\ In m (BaseAgent.message_queue a))
              delivered.
Proof.
  apply (broadcast_messages_name_receiver_as_sender hub_abc "a" "notice"
           (Request empty_request) 1 world0).
  split.
  - simpl. repeat constructor; simpl; intuition discriminate.
  - repeat constructor.
Defined.

(** The scenario of the specification: three registered agents, one of
    them broadcasting, two messages delivered and two history entries. *)
Example broadcast_three_agents :
  exists hub' w',
    Hub.broadcast_message hub_abc "a" "notice" (Request empty_request) 1 world0
    = (Returned hub', w')
    /\ map sender_id (Hub.message_history hub') = ["b"; "c"]
    /\ map receiver_id (Hub.message_history hub') = ["b"; "c"].
Proof. eexists _, _. split; [reflexivity | split; reflexivity]. Qed.

(** ** The popularity agent on empty input *)


Lemma create_error_response_eq (self : BaseAgent.t)
    (original : AgentMessage) (text : string) (w : World) :
  exists w',
    PopularityAnalyzerAgent._create_error_response self original text w
    = (Returned
         (mkMessage (next_uuid w) (BaseAgent.agent_id self)
            (sender_id original) "error_response"
            (ErrorContent text (message_id original) (clock w))
            (N.succ (clock w)) 3),
       w').
Proof.
  eexists.
  unfold PopularityAnalyzerAgent._create_error_response, bind, datetime_now.
  rewrite send_message_eq. reflexivity.
Qed.



(** ** Sorting: permutation, order, stability *)

Section SortedFacts.
Context {A : Type}.
Variable key : A -> R.

Lemma insert_desc_permutation (x : A) (l : list A) :
  Permutation (insert_desc key x l) (x :: l).
Proof.
  induction l as [| y l IH]; simpl; [apply Permutation_refl |].
  destruct (Rlt_dec (key x) (key y)).
  - apply perm_trans with (y :: x :: l);
      [now apply perm_skip | apply perm_swap].
  - apply Permutation_refl.
Qed.

Lemma py_sorted_desc_permutation (l : list A) :
  Permutation (py_sorted_desc key l) l.
Proof.
  induction l as [| x l IH]; simpl; [constructor |].
  apply perm_trans with (x :: py_sorted_desc key l).
  - apply insert_desc_permutation.
  - now apply perm_skip.
Qed.

Lemma insert_desc_descending (x : A) (l : list A) :
  descending key l -> descending key (insert_desc key x l).
Proof.
  unfold descending. induction l as [| y l IH]; intros Hs; simpl.
  - constructor; constructor.
  - inversion Hs as [| ? ? Hs' Hall]; subst.
    destruct (Rlt_dec (key x) (key y)) as [Hlt | Hge].
    + constructor; [now apply IH |].
      apply Forall_forall. intros z Hz.
      apply (Permutation_in _ (insert_desc_permutation x l)) in Hz.
      destruct Hz as [<- | Hz]; [lra |].
      rewrite Forall_forall in Hall. now apply Hall.
    + constructor; [exact Hs |].
      constructor; [lra |].
      eapply Forall_impl; [| exact Hall]. simpl. intros z Hz. lra.
Qed.

Lemma py_sorted_desc_descending (l : list A) :
  descending key (py_sorted_desc key l).
Proof.
  induction l as [| x l IH]; simpl.
  - constructor.
  - now apply insert_desc_descending.
Qed.




End SortedFacts.

Lemma py_slice_to_is_firstn {A : Type} (l : list A) (n : Z) :
  exists m, py_slice_to l n = firstn m l.
Proof.
  unfold py_slice_to. destruct (n <? 0)%Z; eexists; reflexivity.
Qed.


Lemma subsequence_refl {A : Type} (l : list A) : subsequence l l.
Proof. induction l; constructor; assumption. Qed.

Lemma subsequence_filter {A : Type} (p : A -> bool) (l : list A) :
  subsequence (filter p l) l.
Proof.
  induction l as [| x l IH]; simpl; [constructor |].
  destruct (p x); constructor; assumption.
Qed.

Lemma subsequence_trans {A : Type} (l1 l2 l3 : list A) :
  subsequence l1 l2 -> subsequence l2 l3 -> subsequence l1 l3.
Proof.
  intros H12 H23. revert l1 H12.
  induction H23 as [| x l2 l3 H23 IH | x l2 l3 H23 IH]; intros l1 H12.
  - exact H12.
  - constructor. now apply IH.
  - inversion H12; subst.
    + constructor. now apply IH.
    + apply subsequence_keep. now apply IH.
Qed.

(** ** Deduplication *)



Lemma seen_true_iff (isbn : Isbn) (seen_isbns : list Isbn) :
  seen isbn seen_isbns = true <-> In isbn seen_isbns.
Proof.
  unfold seen. destruct (in_dec Isbn_eq_dec isbn seen_isbns);
    split; intros; try assumption; try reflexivity; try discriminate.
  contradiction.
Qed.

Lemma seen_false_iff (isbn : Isbn) (seen_isbns : list Isbn) :
  seen isbn seen_isbns = false <-> ~ In isbn seen_isbns.
Proof.
  rewrite <- seen_true_iff. destruct (seen isbn seen_isbns); split;
    intros H; congruence.
Qed.





Lemma NoDup_firstn {A : Type} (n : nat) (l : list A) :
  NoDup l -> NoDup (firstn n l).
Proof.
  intros H. rewrite <- (firstn_skipn n l) in H.
  now apply NoDup_app_remove_r in H.
Qed.



(** ** Ranking *)









(** ** The recommendation request *)

Lemma perform_semantic_search_returns
    (self : SA.t) (query : string) (top_k : Z) (w : World) :
  exists semantic_results w',
    SA._perform_semantic_search self query top_k w
    = (Returned semantic_results, w').
Proof.
  unfold SA._perform_semantic_search.
  destruct (SA.vector_db self) as [db |], (SA.books_df self) as [df |];
    try (eexists _, _; reflexivity).
  destruct (bool_value db); cbn [negb]; cbv beta iota;
    [| eexists _, _; reflexivity].
  unfold try_except.
  match goal with
  | |- context [let (_, _) := ?body in _] =>
      destruct body as [[docs | e] w1]
  end; eexists _, _; reflexivity.
Qed.

Lemma firstn_slice_nil {A : Type} (n : Z) : py_slice_to (@nil A) n = [].
Proof. unfold py_slice_to. destruct (n <? 0)%Z; apply firstn_nil. Qed.

Lemma recommend_nothing_left (self : SA.t) (semantic_results : list Book)
    (filters : Filters.t) (top_k : Z) :
  SA._apply_filters semantic_results filters = [] ->
  recommend self semantic_results filters top_k = [].
Proof.
  intros E. unfold recommend. rewrite E.
  unfold SA._synthesize_recommendations. simpl. apply firstn_slice_nil.
Qed.

Lemma filter_none {A : Type} (p : A -> bool) (l : list A) :
  (forall x, In x l -> p x = false) -> filter p l = [].
Proof.
  induction l as [| x l IH]; intros H; simpl; [reflexivity |].
  rewrite (H x) by now left. apply IH. intros y Hy. apply H. now right.
Qed.

Lemma emotion_branch_nil (filters : Filters.t) :
  (if tone_requested filters
   then SA._filter_by_emotion [] (SA._get_emotion_scores [])
          (get (Filters.emotion_tone filters) "")
   else []) = [].
Proof. destruct (tone_requested filters); reflexivity. Qed.

Lemma apply_filters_nil (filters : Filters.t) : SA._apply_filters [] filters = [].
Proof.
  unfold SA._apply_filters.
  destruct (SA.truthy_str (Filters.category filters)
            && negb (String.eqb (get (Filters.category filters) "") "All"));
    destruct (SA.truthy_R (Filters.min_rating filters)); simpl filter;
    apply emotion_branch_nil.
Qed.

Lemma apply_filters_all_below_min (semantic_results : list Book)
    (filters : Filters.t) :
  SA.truthy_R (Filters.min_rating filters) = true ->
  (forall r, In r semantic_results ->
             get (average_rating r) 0 < get (Filters.min_rating filters) 0) ->
  SA._apply_filters semantic_results filters = [].
Proof.
  intros Hmin Hbelow. unfold SA._apply_filters. rewrite Hmin.
  set (by_category :=
         if SA.truthy_str (Filters.category filters)
            && negb (String.eqb (get (Filters.category filters) "") "All")
         then filter _ semantic_results else semantic_results).
  assert (Hsub : forall r, In r by_category -> In r semantic_results).
  { unfold by_category. intros r Hr.
    destruct (SA.truthy_str (Filters.category filters)
              && negb (String.eqb (get (Filters.category filters) "") "All"));
      [apply filter_In in Hr; tauto | exact Hr]. }
  rewrite (filter_none _ by_category).
  - apply emotion_branch_nil.
  - intros r Hr. unfold Rgeb.
    destruct (Rle_dec (get (Filters.min_rating filters) 0)
                      (get (average_rating r) 0)) as [Hle | _];
      [| reflexivity].
    specialize (Hbelow r (Hsub r Hr)). exfalso. lra.
Qed.

(** C8. A recommendation request is always answered with a
    [recommendation_result] message whose [total_found] is the number of
    candidates retrieved, before any filter.  When nothing is retrieved,
    the recommendations are empty and [total_found] is 0; when the
    minimum-rating filter excludes every candidate, the recommendations
    are empty and [total_found] is still the number retrieved. *)
Theorem total_found_counts_retrieved_candidates
    (self : SA.t) (message : AgentMessage) (w : World) :
  let request := content_request (content message) in
  let query := get (query request) "" in
  let filters := get (filters request) Filters.empty in
  let top_k := get (top_k request) 10%Z in
  exists semantic_results w1 response w2,
    SA._perform_semantic_search self query (top_k * 2) w
    = (Returned semantic_results, w1)
    /\ SA._handle_recommendation_request self message w
       = (Returned response, w2)
    /\ message_type response = "recommendation_result"
    /\ receiver_id response = sender_id message
    /\ exists recommendations ts,
         content response
         = RecommendationResult query filters recommendations
             (List.length semantic_results) ts
         /\ recommendations = recommend self semantic_results filters top_k
         /\ (semantic_results = [] ->
             recommendations = [] /\ List.length semantic_results = 0%nat)
         /\ (SA.truthy_R (Filters.min_rating filters) = true ->
             (forall r, In r semantic_results ->
                        get (average_rating r) 0
                        < get (Filters.min_rating filters) 0) ->
             recommendations = []).
Proof.
  intros request query filters top_k.
  destruct (perform_semantic_search_returns self query (top_k * 2) w)
    as (semantic_results & w1 & Esearch).
  exists semantic_results, w1.
  unfold SA._handle_recommendation_request.
  fold request. fold query. fold filters. fold top_k.
  unfold bind at 1. rewrite Esearch.
  unfold bind, datetime_now. rewrite send_message_eq.
  eexists _, _.
  do 4 (split; [reflexivity |]).
  exists (recommend self semantic_results filters top_k). eexists.
  do 2 (split; [reflexivity |]).
  split.
  - intros ->. split; [| reflexivity].
    apply recommend_nothing_left, apply_filters_nil.
  - intros Hmin Hbelow.
    now apply recommend_nothing_left, apply_filters_all_below_min.
Qed.

(** ** The scenario of the specification *)

Lemma scenario_scores :
  SA._calculate_simple_popularity_score scenario_B
  < SA._calculate_simple_popularity_score scenario_A.
Proof.
  unfold SA._calculate_simple_popularity_score, scenario_A, scenario_B. simpl.
  rewrite !py_min_Rmin.
  assert (H : Rmin (np_log10 6 / 5) 1 <= Rmin (np_log10 501 / 5) 1).
  { apply Rmin_monotone_l. apply Rmult_le_compat_r; [lra |].
    apply np_log10_monotone; lra. }
  lra.
Qed.

(** Candidates A, B, A with [top_k = 2] and no filter give A then B. *)
Example scenario_dedup_rank_truncate :
  map SA.key_of
    (recommend sample_suggestion_agent [scenario_A; scenario_B; scenario_A]
       Filters.empty 2)
  = [IsbnInt 1; IsbnInt 2].
Proof.
  unfold recommend.
  change (SA._apply_filters _ Filters.empty)
    with [scenario_A; scenario_B; scenario_A].
  unfold SA._get_popularity_scores. simpl SA.popularity_agent. cbv iota.
  unfold SA._synthesize_recommendations.
  change (snd (SA.remove_duplicates [scenario_A; scenario_B; scenario_A]))
    with [scenario_A; scenario_B].
  change (fold_left _ [scenario_A; scenario_B; scenario_A] [])
    with [(IsbnInt 1, SA._calculate_simple_popularity_score scenario_A);
          (IsbnInt 2, SA._calculate_simple_popularity_score scenario_B)].
  change (map _ [scenario_A; scenario_B])
    with [set_popularity_score scenario_A
            (SA._calculate_simple_popularity_score scenario_A);
          set_popularity_score scenario_B
            (SA._calculate_simple_popularity_score scenario_B)].
  cbn [py_sorted_desc insert_desc popularity_score set_popularity_score get].
  pose proof scenario_scores as Hlt.
  destruct (Rlt_dec (SA._calculate_simple_popularity_score scenario_A)
                    (SA._calculate_simple_popularity_score scenario_B));
    [exfalso; lra | reflexivity].
Qed.

(** ** Registration keeps the hub well formed *)

Lemma dict_set_keys_absent {V : Type} (d : list (string * V)) (k : string)
    (v : V) :
  ~ In k (dict_keys d) ->
  dict_keys (dict_set string_dec d k v) = dict_keys d ++ [k].
Proof.
  unfold dict_keys. induction d as [| [k0 v0] d IH]; intros Hn; simpl;
    [reflexivity |].
  destruct (string_dec k k0) as [-> | Hne].
  - exfalso. apply Hn. now left.
  - simpl. f_equal. apply IH. intros H. apply Hn. now right.
Qed.

Lemma register_agent_well_formed (self : Hub.t) (agent : BaseAgent.t)
    (w : World) :
  Hub.well_formed self ->
  exists hub' w',
    Hub.register_agent self agent w = (Returned hub', w')
    /\ Hub.well_formed hub'
    /\ dict_get string_dec (Hub.agents hub') (BaseAgent.agent_id agent)
       = Some agent
    /\ Hub.message_history hub' = Hub.message_history self.
Proof.
  intros [Hnd Hids]. eexists _, _. split; [reflexivity |].
  unfold Hub.well_formed. cbn [Hub.agents Hub.message_history].
  repeat split.
  - destruct (in_dec string_dec (BaseAgent.agent_id agent)
                (dict_keys (Hub.agents self))) as [Hin | Hout].
    + now rewrite dict_keys_set_present.
    + rewrite dict_set_keys_absent by exact Hout.
      apply NoDup_rev in Hnd. rewrite <- (rev_involutive (_ ++ _)).
      apply NoDup_rev. rewrite rev_app_distr. simpl.
      constructor; [| exact Hnd]. intros H. apply Hout.
      now apply in_rev.
  - clear Hnd. induction Hids as [| [k0 a0] d H0 Hd IH]; simpl.
    + constructor; [reflexivity | constructor].
    + destruct (string_dec (BaseAgent.agent_id agent) k0) as [E | Hne].
      * constructor; [simpl; congruence | exact Hd].
      * constructor; assumption.
  - apply dict_get_set_same.
Qed.

Lemma empty_hub_well_formed : Hub.well_formed Hub.__init__.
Proof. split; constructor. Qed.

(** * Further properties of the agents *)

(** ** popularity_agent.py *)

(** X1. The trend score takes one of the three values 0.3, 0.6 and 0.8,
    is 0.3 for a record without rating or without count, and never drops
    when the ratings count and the average rating both grow or stay. *)
Theorem trend_score_three_tiers_monotone :
  (forall book,
      PA._calculate_trend_score book = 3 / 10
      \/ PA._calculate_trend_score book = 6 / 10
      \/ PA._calculate_trend_score book = 8 / 10)
  /\ (forall book,
         average_rating book = None \/ ratings_count book = None ->
         PA._calculate_trend_score book = 3 / 10)
  /\ (forall book (c1 c2 : Z) (r1 r2 : R),
         (c1 <= c2)%Z -> r1 <= r2 ->
         PA._calculate_trend_score
           (set_average_rating (set_ratings_count book c1) r1)
         <= PA._calculate_trend_score
              (set_average_rating (set_ratings_count book c2) r2)).
Proof.
  split; [| split].
  - intros book. unfold PA._calculate_trend_score.
    destruct ((100 <? get (ratings_count book) 0%Z)%Z
              && Rgtb (get (average_rating book) 0) 4); [tauto |].
    destruct ((50 <? get (ratings_count book) 0%Z)%Z
              && Rgtb (get (average_rating book) 0) (35 / 10)); tauto.
  - intros book [H | H]; unfold PA._calculate_trend_score; rewrite H; simpl.
    + unfold Rgtb.
      destruct (Rlt_dec 4 0); [exfalso; lra |].
      destruct (Rlt_dec (35 / 10) 0); [exfalso; lra |].
      now rewrite !andb_false_r.
    + reflexivity.
  - intros book c1 c2 r1 r2 Hc Hr. unfold PA._calculate_trend_score. simpl.
    unfold Rgtb.
    destruct (Z.ltb_spec 100 c1), (Z.ltb_spec 100 c2),
             (Z.ltb_spec 50 c1), (Z.ltb_spec 50 c2); try lia;
      destruct (Rlt_dec 4 r1), (Rlt_dec 4 r2),
               (Rlt_dec (35 / 10) r1), (Rlt_dec (35 / 10) r2);
      simpl; lra.
Qed.

(** X2. The recommendation score is never below the popularity score of
    the record, never above 1, and at most 1.32 times the popularity
    score: preferences can only raise a score. *)
Theorem recommendation_score_only_boosts
    (recommendation : Book) (user_preferences : PA.ScoringPreferences) :
  PA._calculate_popularity_score recommendation
  <= PA._calculate_recommendation_score recommendation user_preferences
  /\ PA._calculate_recommendation_score recommendation user_preferences <= 1
  /\ PA._calculate_recommendation_score recommendation user_preferences
     <= 132 / 100 * PA._calculate_popularity_score recommendation.
Proof.
  pose proof (popularity_score_range recommendation) as [H0 H1].
  unfold PA._calculate_recommendation_score. cbv zeta.
  set (base := PA._calculate_popularity_score recommendation) in *.
  rewrite py_min_Rmin.
  set (b1 := if PA.truthy_str _ then _ else base).
  assert (Hb1 : base <= b1 <= 12 / 10 * base).
  { unfold b1. destruct (PA.truthy_str _); [| lra].
    destruct (simple_categories recommendation); [| lra].
    destruct (String.eqb _ _); lra. }
  set (b2 := if PA.truthy_R _ then _ else b1).
  assert (Hb2 : b1 <= b2 <= 11 / 10 * b1).
  { unfold b2. destruct (PA.truthy_R _); [| lra].
    destruct (Rgeb _ _); lra. }
  repeat split.
  - apply Rmin_glb; lra.
  - apply Rmin_r.
  - eapply Rle_trans; [apply Rmin_l |]. nra.
Qed.


Lemma popularity_analysis_loop (books : list Book) :
  forall (acc : list BookAnalysis) (w : World),
  exists entries w',
    for_each books
      (fun book results =>
         (now <- datetime_now ;;
          ret (results ++
               [mkBookAnalysis (isbn13 book) (title book)
                  (PA._calculate_popularity_score book)
                  (PA._calculate_trend_score book)
                  ((PA._calculate_popularity_score book
                    + PA._calculate_trend_score book) / 2) now]))%monad)
      acc w
    = (Returned (acc ++ entries), w')
    /\ Forall2 analyses books entries
    /\ next_uuid w' = next_uuid w.
Proof.
  induction books as [| book books IH]; intros acc w.
  - exists [], w. simpl. unfold ret. rewrite app_nil_r.
    repeat split. constructor.
  - simpl for_each. unfold bind at 1. unfold bind at 1.
    unfold datetime_now at 1. unfold ret at 1.
    match goal with
    | |- context [for_each books ?f ?acc1 ?w1] =>
        destruct (IH acc1 w1) as (entries & w' & E & HF & Hu)
    end.
    eexists (_ :: entries), w'. split; [| split].
    + rewrite E. now rewrite <- app_assoc.
    + constructor; [| exact HF]. repeat split.
    + exact Hu.
Qed.

(** X3. A popularity-analysis request never raises: the reply is a
    [popularity_analysis_result] addressed to the requester, with one
    entry per book of [books_data], in the same order, each holding the
    book's key and title, its popularity and trend scores and their mean
    as overall score; [books_analyzed] is the number of books. *)
Theorem popularity_analysis_one_entry_per_book
    (self : BaseAgent.t) (message : AgentMessage) (w : World) :
  exists response w' analysis entries ts,
    PA._handle_popularity_analysis self message w = (Returned response, w')
    /\ message_type response = "popularity_analysis_result"
    /\ receiver_id response = sender_id message
    /\ priority response = priority message
    /\ content response
       = PopularityAnalysisResult analysis
           (List.length
              (get (books_data (content_request (content message))) []))
           entries ts
    /\ Forall2 analyses
         (get (books_data (content_request (content message))) []) entries.
Proof.
  unfold PA._handle_popularity_analysis. cbv zeta.
  destruct (popularity_analysis_loop
              (get (books_data (content_request (content message))) []) [] w)
    as (entries & w1 & E & HF & _).
  unfold bind at 1. rewrite E. simpl app.
  unfold bind, datetime_now. rewrite send_message_eq.
  eexists _, _, _, entries, _. split; [reflexivity |].
  repeat split; simpl.
  - now rewrite (Forall2_length HF).
  - exact HF.
Qed.

Lemma df_filter_returns (df : DataFrame) (column : string)
    (cond : Book -> bool) (w : World) :
  has_column df column = true ->
  PA.df_filter df column cond w
  = (Returned (mkDataFrame (df_columns df) (filter cond (df_rows df))), w).
Proof. intros H. unfold PA.df_filter. now rewrite H. Qed.

Lemma df_filter_raises (df : DataFrame) (column : string)
    (cond : Book -> bool) (w : World) :
  has_column df column = false ->
  PA.df_filter df column cond w = (Raised (KeyError column), w).
Proof. intros H. unfold PA.df_filter. now rewrite H. Qed.

(** One stage of [_filter_books_by_criteria]: either skipped, or a filter
    on a column that must exist. *)
Lemma criteria_stage (active : bool) (df : DataFrame) (column : string)
    (cond : Book -> bool) (w : World) :
  (if active then PA.df_filter df column cond else ret df) w
  = (if active && negb (has_column df column)
     then Raised (KeyError column)
     else Returned (mkDataFrame (df_columns df)
                      (if active then filter cond (df_rows df)
                       else df_rows df)),
     w).
Proof.
  destruct active; simpl.
  - unfold PA.df_filter. destruct (has_column df column); reflexivity.
  - destruct df; reflexivity.
Qed.

(** X4. [_filter_books_by_criteria] leaves the frame as it is when no
    criterion is given; when it returns, the columns are unchanged, the
    rows are a subsequence of the input rows and every row meets every
    criterion given; a minimum rating on a frame without the
    [average_rating] column raises [KeyError]. *)
Theorem filter_books_by_criteria_narrows
    (books_df : DataFrame) (criteria : Criteria.t) (w : World) :
  (PA.truthy_R (Criteria.min_rating criteria) = false ->
   PA.truthy_Z (Criteria.min_ratings_count criteria) = false ->
   PA.truthy_str (Criteria.category criteria) = false ->
   PA._filter_books_by_criteria books_df criteria w = (Returned books_df, w))
  /\ (forall filtered w',
         PA._filter_books_by_criteria books_df criteria w
         = (Returned filtered, w') ->
         w' = w
         /\ df_columns filtered = df_columns books_df
         /\ subsequence (df_rows filtered) (df_rows books_df)
         /\ Forall (meets_criteria criteria) (df_rows filtered))
  /\ (PA.truthy_R (Criteria.min_rating criteria) = true ->
      has_column books_df "average_rating" = false ->
      PA._filter_books_by_criteria books_df criteria w
      = (Raised (KeyError "average_rating"), w)).
Proof.
  unfold PA._filter_books_by_criteria. cbv zeta.
  split; [| split].
  - intros -> -> ->. destruct books_df. reflexivity.
  - intros filtered w'.
    unfold bind at 1. rewrite criteria_stage.
    destruct (PA.truthy_R (Criteria.min_rating criteria)
              && negb (has_column books_df "average_rating"));
      [discriminate |].
    unfold bind at 1. rewrite criteria_stage. cbn [df_columns df_rows].
    match goal with
    | |- context [if ?c then Raised _ else _] => destruct c
    end; [discriminate |].
    unfold bind at 1. rewrite criteria_stage. cbn [df_columns df_rows].
    match goal with
    | |- context [if ?c then Raised _ else _] => destruct c
    end; [discriminate |].
    unfold ret. intros E. inversion E; subst. clear E.
    cbn [df_columns df_rows]. repeat split.
    + destruct (PA.truthy_str _), (PA.truthy_Z _), (PA.truthy_R _);
        repeat first
          [ apply subsequence_refl
          | apply subsequence_filter
          | eapply subsequence_trans; [apply subsequence_filter |] ].
    + apply Forall_forall. intros r Hr. unfold meets_criteria.
      repeat split; intros Hc; rewrite Hc in Hr.
      * assert (Hin : In r (filter
                    (fun r0 => match average_rating r0 with
                               | Some x =>
                                   Rgeb x (get (Criteria.min_rating criteria) 0)
                               | None => false
                               end) (df_rows books_df))).
        { destruct (PA.truthy_str _);
            [apply filter_In in Hr; destruct Hr as [Hr _] |];
            (destruct (PA.truthy_Z _);
             [apply filter_In in Hr; destruct Hr as [Hr _] |]);
            exact Hr. }
        apply filter_In in Hin. destruct Hin as [_ Hp].
        destruct (average_rating r) as [x |]; [| discriminate].
        exists x. split; [reflexivity |]. unfold Rgeb in Hp.
        destruct (Rle_dec (get (Criteria.min_rating criteria) 0) x);
          [assumption | discriminate].
      * assert (Hp : match ratings_count r with
                     | Some x =>
                         (get (Criteria.min_ratings_count criteria) 0 <=? x)%Z
                     | None => false
                     end = true).
        { destruct (PA.truthy_str _);
            [apply filter_In in Hr; destruct Hr as [Hr _] |];
            apply filter_In in Hr; destruct Hr as [_ Hp']; exact Hp'. }
        destruct (ratings_count r) as [n |]; [| discriminate].
        exists n. split; [reflexivity |]. now apply Z.leb_le.
      * apply filter_In in Hr. destruct Hr as [_ Hp].
        destruct (simple_categories r) as [c |]; [| discriminate].
        apply String.eqb_eq in Hp. now subst.
  - intros Hm Hcol. unfold bind at 1. rewrite criteria_stage.
    rewrite Hm, Hcol. reflexivity.
Qed.

Lemma handled_reply {A : Type} (handler : M A) (w : World) :
  (response <- handler ;; ret (Some response))%monad w
  = match handler w with
    | (Returned r, w') => (Returned (Some r), w')
    | (Raised e, w') => (Raised e, w')
    end.
Proof. unfold bind, ret. destruct (handler w) as [[r | e] w']; reflexivity. Qed.

Lemma process_message_dispatch {pd : Pandas}
    (scoring : BaseAgent.t -> AgentMessage -> M AgentMessage)
    (self : BaseAgent.t) (message : AgentMessage) (w : World) :
  PA.process_message scoring self message w
  = try_except
      (match handler_of scoring (message_type message) with
       | Some handler =>
           (response <- handler self message ;; ret (Some response))%monad
       | None =>
           (logger WARNING
              ("Unknown message type: " ++ message_type message)%string ;;;
            ret None)%monad
       end)
      (fun e =>
         (logger ERROR ("Error processing message: " ++ exn_str e)%string ;;;
          response <- PA._create_error_response self message (exn_str e) ;;
          ret (Some response))%monad)
      w.
Proof.
  unfold PA.process_message, handler_of.
  repeat match goal with
         | |- context [String.eqb (message_type message) ?k] =>
             destruct (String.eqb (message_type message) k)
         end; reflexivity.
Qed.

(** X5. [process_message] of the popularity agent never raises.  A
    message of a type it does not know is answered by nothing, after a
    warning; otherwise the reply is the handler's, and when the handler
    raises, the reply is an [error_response] of priority 3 to the
    requester that carries the text of the exception and the identifier
    of the request. *)
Theorem popularity_process_message_never_raises {pd : Pandas}
    (scoring : BaseAgent.t -> AgentMessage -> M AgentMessage)
    (self : BaseAgent.t) (message : AgentMessage) (w : World) :
  exists response w',
    PA.process_message scoring self message w = (Returned response, w')
    /\ match handler_of scoring (message_type message) with
       | None =>
           response = None
           /\ w' = add_log w WARNING
                     ("Unknown message type: " ++ message_type message)%string
       | Some handler =>
           match handler self message w with
           | (Returned reply, w1) => response = Some reply /\ w' = w1
           | (Raised e, _) =>
               exists reply,
                 response = Some reply
                 /\ reports_error self message (exn_str e) reply
           end
       end.
Proof.
  rewrite process_message_dispatch. unfold try_except.
  destruct (handler_of scoring (message_type message)) as [handler |].
  - rewrite handled_reply.
    destruct (handler self message w) as [[reply | e] w1].
    + eexists _, _. split; [reflexivity | split; reflexivity].
    + unfold bind at 1. unfold logger at 1. rewrite handled_reply.
      match goal with
      | |- context [PA._create_error_response self message ?t ?w2] =>
          destruct (create_error_response_eq self message t w2) as [w3 E]
      end.
      rewrite E. eexists _, _. split; [reflexivity |].
      eexists. split; [reflexivity |].
      repeat split. eexists. reflexivity.
  - eexists _, _. split; [reflexivity | split; reflexivity].
Qed.

(** ** base_agent.py *)



Lemma register_agent_stores_agent
    (self : Hub.t) (agent : BaseAgent.t) (w : World) :
  exists hub' w',
    Hub.register_agent self agent w = (Returned hub', w')
    /\ dict_get string_dec (Hub.agents hub') (BaseAgent.agent_id agent)
       = Some agent
    /\ Hub.message_history hub' = Hub.message_history self.
Proof.
  eexists _, _. split; [reflexivity |].
  cbn [Hub.agents Hub.message_history]. split; [| reflexivity].
  apply dict_get_set_same.
Qed.

(** X7. [register_agent] is an upsert by identity: afterwards the hub
    holds exactly the given agent under its [agent_id], whatever was
    stored there before, and every other agent and the history are as
    they were.  A new identity is added after the existing ones, a known
    identity keeps its place; a well-formed hub stays well formed. *)
Theorem register_agent_is_upsert
    (self : Hub.t) (agent : BaseAgent.t) (w : World) :
  exists hub' w',
    Hub.register_agent self agent w = (Returned hub', w')
    /\ dict_get string_dec (Hub.agents hub') (BaseAgent.agent_id agent)
       = Some agent
    /\ (forall k, k <> BaseAgent.agent_id agent ->
                  dict_get string_dec (Hub.agents hub') k
                  = dict_get string_dec (Hub.agents self) k)
    /\ Hub.message_history hub' = Hub.message_history self
    /\ (In (BaseAgent.agent_id agent) (dict_keys (Hub.agents self)) ->
        dict_keys (Hub.agents hub') = dict_keys (Hub.agents self))
    /\ (~ In (BaseAgent.agent_id agent) (dict_keys (Hub.agents self)) ->
        dict_keys (Hub.agents hub')
        = dict_keys (Hub.agents self) ++ [BaseAgent.agent_id agent])
    /\ (Hub.well_formed self -> Hub.well_formed hub').
Proof.
  eexists _, _. split; [reflexivity |].
  cbn [Hub.agents Hub.message_history].
  split; [apply dict_get_set_same |].
  split; [intros k Hk; now apply dict_get_set_other |].
  split; [reflexivity |].
  split; [apply dict_keys_set_present |].
  split; [apply dict_set_keys_absent |].
  intros Hwf.
  destruct (register_agent_well_formed self agent w Hwf)
    as (hub' & w' & E & Hwf' & _).
  inversion E; subst. exact Hwf'.
Qed.

(** X8. Registration followed by routing: a message addressed to the
    identity of an agent that was just registered is delivered to that
    agent, whose mailbox then is its mailbox at registration followed by
    the message, and the message is the last entry of the history. *)
Theorem route_after_register_delivers
    (self : Hub.t) (agent : BaseAgent.t) (message : AgentMessage) (w : World) :
  receiver_id message = BaseAgent.agent_id agent ->
  exists hub1 w1 hub2 w2,
    Hub.register_agent self agent w = (Returned hub1, w1)
    /\ Hub.route_message hub1 message w1 = (Returned hub2, w2)
    /\ dict_get string_dec (Hub.agents hub2) (BaseAgent.agent_id agent)
       = Some (enqueue agent message)
    /\ Hub.message_history hub2 = Hub.message_history self ++ [message].
Proof.
  intros Hr.
  destruct (register_agent_stores_agent self agent w)
    as (hub1 & w1 & E1 & Hget & Hhist).
  exists hub1, w1. rewrite <- Hr in Hget.
  rewrite (route_message_registered hub1 message agent w1 Hget).
  eexists _, _. repeat split; [exact E1 | |].
  - cbn [Hub.agents]. rewrite <- Hr. apply dict_get_set_same.
  - cbn [Hub.message_history]. now rewrite Hhist.
Qed.

Lemma route_after_register_delivers_witness :
  exists hub1 w1 hub2 w2,
    Hub.register_agent hub_abc agent_b world0 = (Returned hub1, w1)
    /\ Hub.route_message hub1 (ping "b") w1 = (Returned hub2, w2)
    /\ dict_get string_dec (Hub.agents hub2) (BaseAgent.agent_id agent_b)
       = Some (enqueue agent_b (ping "b"))
    /\ Hub.message_history hub2 = Hub.message_history hub_abc ++ [ping "b"].
Proof.
  apply (route_after_register_delivers hub_abc agent_b (ping "b") world0).
  reflexivity.
Defined.

(** ** suggestion_agent.py: preferences *)

Lemma string_app_assoc (a b c : string) :
  ((a ++ b) ++ c = a ++ (b ++ c))%string.
Proof. induction a as [| x a IH]; simpl; [reflexivity | now rewrite IH]. Qed.

Lemma prefix_iff (word s : string) :
  String.prefix word s = true <-> exists q, s = (word ++ q)%string.
Proof.
  revert s. induction word as [| a word IH]; intros s.
  - split; [intros _; now exists s | intros _; destruct s; reflexivity].
  - destruct s as [| b s]; simpl.
    + split; [discriminate | intros [q H]; discriminate].
    + destruct (ascii_dec a b) as [-> | Hne].
      * rewrite IH. split; intros [q H]; exists q; congruence.
      * split; [discriminate | intros [q H]; congruence].
Qed.

Lemma contains_iff (word s : string) :
  SA.contains word s = true
  <-> exists p q, s = (p ++ word ++ q)%string.
Proof.
  induction s as [| c s IH].
  - change (SA.contains word "")
      with (String.prefix word "" || false).
    rewrite orb_false_r, prefix_iff. split.
    + intros [q H]. now exists EmptyString, q.
    + intros (p & q & H). destruct p as [| x p]; [now exists q |].
      discriminate.
  - change (SA.contains word (String c s))
      with (String.prefix word (String c s) || SA.contains word s).
    rewrite orb_true_iff, prefix_iff, IH. split.
    + intros [[q H] | (p & q & H)].
      * now exists EmptyString, q.
      * exists (String c p), q. simpl. now rewrite H.
    + intros (p & q & H). destruct p as [| x p].
      * left. now exists q.
      * right. exists p, q. simpl in H. congruence.
Qed.

(** A word that occurs in a word that occurs in [s] occurs in [s]. *)
Lemma contains_trans (inner outer s : string) :
  SA.contains inner outer = true -> SA.contains outer s = true ->
  SA.contains inner s = true.
Proof.
  rewrite !contains_iff. intros (p1 & q1 & ->) (p2 & q2 & ->).
  exists (p2 ++ p1)%string, (q1 ++ q2)%string.
  now rewrite !string_app_assoc.
Qed.

Lemma any_in_true (word : string) (words : list string) (s : string) :
  In word words -> SA.contains word s = true -> SA.any_in words s = true.
Proof.
  intros Hin Hc. unfold SA.any_in. apply existsb_exists. eauto.
Qed.

(** X9. Genre detection works on substrings of the lowered query, so a
    query that mentions "nonfiction" or "history" is tagged Fiction as
    well as Nonfiction ("fiction" occurs in "nonfiction", "story" in
    "history").  The detected genres are among Fiction, Nonfiction and
    Children's Fiction, without repetition, and the complexity level is
    always "medium". *)
Theorem nonfiction_query_is_also_fiction (query : string) :
  let preferences := SA._extract_preferences_from_query query in
  (SA.contains "nonfiction" (SA.lower query) = true
   \/ SA.contains "history" (SA.lower query) = true ->
   In "Fiction" (SA.preferred_genres preferences)
   /\ In "Nonfiction" (SA.preferred_genres preferences))
  /\ NoDup (SA.preferred_genres preferences)
  /\ incl (SA.preferred_genres preferences)
          ["Fiction"; "Nonfiction"; "Children's Fiction"]
  /\ SA.complexity_level preferences = "medium".
Proof.
  intros preferences. unfold preferences, SA._extract_preferences_from_query.
  cbv zeta. cbn [SA.preferred_genres SA.complexity_level].
  split; [| split; [| split; [| reflexivity]]].
  - intros H.
    assert (Hf : SA.any_in ["fiction"; "novel"; "story"] (SA.lower query)
                 = true).
    { destruct H as [H | H].
      - apply (any_in_true "fiction"); [simpl; tauto |].
        apply (contains_trans _ "nonfiction"); [reflexivity | exact H].
      - apply (any_in_true "story"); [simpl; tauto |].
        apply (contains_trans _ "history"); [reflexivity | exact H]. }
    assert (Hn : SA.any_in ["nonfiction"; "biography"; "history"]
                   (SA.lower query) = true).
    { destruct H as [H | H].
      - apply (any_in_true "nonfiction"); [simpl; tauto | exact H].
      - apply (any_in_true "history"); [simpl; tauto | exact H]. }
    rewrite Hf, Hn.
    destruct (SA.any_in ["children"; "kids"; "young"] (SA.lower query));
      simpl; tauto.
  - destruct (SA.any_in ["fiction"; "novel"; "story"] (SA.lower query)),
      (SA.any_in ["nonfiction"; "biography"; "history"] (SA.lower query)),
      (SA.any_in ["children"; "kids"; "young"] (SA.lower query));
      simpl; repeat constructor; simpl; intuition discriminate.
  - destruct (SA.any_in ["fiction"; "novel"; "story"] (SA.lower query)),
      (SA.any_in ["nonfiction"; "biography"; "history"] (SA.lower query)),
      (SA.any_in ["children"; "kids"; "young"] (SA.lower query));
      simpl; intros x Hx; simpl in Hx; simpl; tauto.
Qed.

Lemma lower_ascii_idempotent (c : ascii) :
  SA.lower_ascii (SA.lower_ascii c) = SA.lower_ascii c.
Proof.
  destruct c as [[] [] [] [] [] [] [] []]; reflexivity.
Qed.

Lemma lower_idempotent (s : string) : SA.lower (SA.lower s) = SA.lower s.
Proof.
  induction s as [| c s IH]; simpl; [reflexivity |].
  now rewrite lower_ascii_idempotent, IH.
Qed.

Lemma lower_app (a b : string) :
  SA.lower (a ++ b) = (SA.lower a ++ SA.lower b)%string.
Proof. induction a as [| c a IH]; simpl; [reflexivity | now rewrite IH]. Qed.

(** X10. Preference extraction does not depend on the case of the query:
    the query and its lower-case form give the same preferences, and a
    keyword is found whatever the case of the text around it and of the
    keyword's own letters in the query. *)
Theorem query_preferences_ignore_case (query : string) :
  SA._extract_preferences_from_query (SA.lower query)
  = SA._extract_preferences_from_query query
  /\ forall before word after,
       query = (before ++ word ++ after)%string ->
       SA.contains (SA.lower word) (SA.lower query) = true.
Proof.
  split.
  - unfold SA._extract_preferences_from_query. now rewrite lower_idempotent.
  - intros before word after ->. apply contains_iff.
    exists (SA.lower before), (SA.lower after). now rewrite !lower_app.
Qed.





(** ** suggestion_agent.py: retrieval *)

Lemma first_word_raises_only_index_error (s : string) (e : Exn) :
  first_word s = Raised e -> e = IndexError.
Proof.
  unfold first_word. destruct (lstrip s); intros H; congruence.
Qed.

Lemma py_int_raises_only_value_error (s : string) (e : Exn) :
  py_int s = Raised e -> e = ValueError.
Proof. unfold py_int. destruct s; intros H; congruence. Qed.

(** One document, with the [isbn13] column present: the results grow by
    what the document contributes, or a parse error is raised. *)
Lemma lookup_document_with_column
    (df : DataFrame) (doc : Document) (results : list Book) (w : World) :
  has_column df "isbn13" = true ->
  match isbn_of_document doc with
  | Some _ =>
      SA.lookup_document df doc results w
      = (Returned (results ++ book_of_document df doc), w)
  | None =>
      exists e,
        SA.lookup_document df doc results w = (Raised e, w)
        /\ SA.is_value_or_index_error e = true
        /\ book_of_document df doc = []
  end.
Proof.
  intros Hcol. unfold SA.lookup_document, book_of_document, isbn_of_document,
    row_of, bind, lift, ret. rewrite Hcol.
  destruct (first_word (page_content doc)) as [word | e] eqn:Ew.
  - destruct (py_int (filter_digits word)) as [n | e] eqn:En.
    + destruct (filter _ (df_rows df)); simpl;
        [now rewrite app_nil_r | reflexivity].
    + apply py_int_raises_only_value_error in En. subst e.
      exists ValueError. repeat split.
  - apply first_word_raises_only_index_error in Ew. subst e.
    exists IndexError. repeat split.
Qed.

Lemma search_loop_with_column (df : DataFrame) (docs : list Document) :
  has_column df "isbn13" = true ->
  forall (acc : list Book) (w : World),
  exists w',
    for_each docs
      (fun doc results =>
         fun w0 =>
           match SA.lookup_document df doc results w0 with
           | (Raised e, w1) =>
               if SA.is_value_or_index_error e
               then (logger WARNING
                       ("Error extracting ISBN from document: "
                        ++ exn_str e)%string ;;;
                     ret results)%monad w1
               else (Raised e, w1)
           | r => r
           end)
      acc w
    = (Returned (acc ++ found_books df docs), w')
    /\ next_uuid w' = next_uuid w /\ clock w' = clock w.
Proof.
  intros Hcol. induction docs as [| doc docs IH]; intros acc w.
  - exists w. simpl. unfold ret. now rewrite app_nil_r.
  - simpl for_each. unfold bind at 1.
    pose proof (lookup_document_with_column df doc acc w Hcol) as Hdoc.
    unfold found_books. cbn [flat_map]. fold (found_books df docs).
    destruct (isbn_of_document doc) as [n |].
    + rewrite Hdoc. cbv beta iota.
      destruct (IH (acc ++ book_of_document df doc) w) as (w' & E & Hw).
      exists w'. split; [| exact Hw].
      etransitivity; [exact E |]. now rewrite app_assoc.
    + destruct Hdoc as (e & -> & -> & ->). cbv beta iota.
      unfold bind at 1. unfold logger at 1. unfold ret at 1.
      cbv beta iota.
      match goal with
      | |- context [for_each docs _ acc ?w1] =>
          destruct (IH acc w1) as (w' & E & Hu & Hc)
      end.
      exists w'. split; [| split; assumption]. exact E.
Qed.

Lemma book_of_document_row (df : DataFrame) (doc : Document) (b : Book) :
  In b (book_of_document df doc) ->
  In b (df_rows df)
  /\ exists n, isbn_of_document doc = Some n /\ isbn13 b = Some (IsbnInt n).
Proof.
  unfold book_of_document, row_of.
  destruct (isbn_of_document doc) as [n |]; [| intros []].
  destruct (filter _ (df_rows df)) as [| b0 rest] eqn:Ef; [intros [] |].
  simpl. intros [<- | []].
  assert (Hin : In b0 (filter
                   (fun r => match isbn13 r with
                             | Some (IsbnInt z) => (z =? n)%Z
                             | _ => false
                             end) (df_rows df)))
    by (rewrite Ef; now left).
  apply filter_In in Hin. destruct Hin as [Hin Hp]. split; [exact Hin |].
  exists n. split; [reflexivity |].
  destruct (isbn13 b0) as [[| z |] |]; try discriminate.
  apply Z.eqb_eq in Hp. now subst.
Qed.

(** X12. With a usable vector store, a catalogue that has the [isbn13]
    column and a search that returns, [_perform_semantic_search] returns,
    in the order of the documents, the first catalogue row whose [isbn13]
    is the number at the start of each document; a document with no
    leading number or with no such row contributes nothing and does not
    stop the search.  So there are at most as many results as documents,
    and every result is a catalogue row. *)
Theorem semantic_search_returns_catalogue_rows
    (self : SA.t) (db : VectorStore) (df : DataFrame) (query : string)
    (top_k : Z) (docs : list Document) (w : World) :
  SA.vector_db self = Some db ->
  bool_value db = true ->
  SA.books_df self = Some df ->
  has_column df "isbn13" = true ->
  similarity_search db query top_k = Returned docs ->
  exists w',
    SA._perform_semantic_search self query top_k w
    = (Returned (found_books df docs), w')
    /\ (List.length (found_books df docs) <= List.length docs)%nat
    /\ forall b, In b (found_books df docs) ->
         In b (df_rows df)
         /\ exists doc n,
              In doc docs
              /\ isbn_of_document doc = Some n
              /\ isbn13 b = Some (IsbnInt n).
Proof.
  intros Hdb Hbool Hdf Hcol Hsearch.
  unfold SA._perform_semantic_search. rewrite Hdb, Hdf, Hbool.
  cbn [negb]. unfold try_except. unfold bind at 1. unfold lift at 1.
  rewrite Hsearch.
  destruct (search_loop_with_column df docs Hcol [] w) as (w' & E & _).
  rewrite E. exists w'. split; [reflexivity | split].
  - unfold found_books. clear. induction docs as [| doc docs IH];
      [simpl; lia |].
    cbn [flat_map]. rewrite length_app. cbn [List.length].
    assert (List.length (book_of_document df doc) <= 1)%nat.
    { unfold book_of_document. destruct (isbn_of_document doc);
        [destruct (row_of df z) |]; simpl; lia. }
    lia.
  - intros b Hb. unfold found_books in Hb. apply in_flat_map in Hb.
    destruct Hb as (doc & Hdoc & Hb).
    destruct (book_of_document_row df doc b Hb) as (Hrow & n & En & Ek).
    split; [exact Hrow |]. exists doc, n. repeat split; assumption.
Qed.

Lemma semantic_search_returns_catalogue_rows_witness :
  exists w',
    SA._perform_semantic_search sample_searcher "a novel" 4 world0
    = (Returned (found_books sample_catalogue sample_documents), w')
    /\ (List.length (found_books sample_catalogue sample_documents)
        <= List.length sample_documents)%nat
    /\ forall b, In b (found_books sample_catalogue sample_documents) ->
         In b (df_rows sample_catalogue)
         /\ exists doc n,
              In doc sample_documents
              /\ isbn_of_document doc = Some n
              /\ isbn13 b = Some (IsbnInt n).
Proof.
  apply (semantic_search_returns_catalogue_rows sample_searcher sample_store
           sample_catalogue "a novel" 4 sample_documents world0);
    reflexivity.
Defined.

(** The documents of the sample store lead to the one book of the sample
    catalogue: the second has no digit, the third is blank, the number of
    the fourth is not in the catalogue. *)
Example found_books_sample :
  found_books sample_catalogue sample_documents = [sample_book].
Proof. reflexivity. Qed.

Lemma lookup_document_without_column
    (df : DataFrame) (doc : Document) (results : list Book) (w : World) :
  has_column df "isbn13" = false ->
  exists e,
    SA.lookup_document df doc results w = (Raised e, w)
    /\ (SA.is_value_or_index_error e = true \/ e = KeyError "isbn13").
Proof.
  intros Hcol. unfold SA.lookup_document, bind, lift, ret. rewrite Hcol.
  destruct (first_word (page_content doc)) as [word | e] eqn:Ew.
  - destruct (py_int (filter_digits word)) as [n | e] eqn:En.
    + exists (KeyError "isbn13"). split; [reflexivity | now right].
    + apply py_int_raises_only_value_error in En. subst e.
      exists ValueError. split; [reflexivity | now left].
  - apply first_word_raises_only_index_error in Ew. subst e.
    exists IndexError. split; [reflexivity | now left].
Qed.

Lemma search_loop_without_column (df : DataFrame) (docs : list Document) :
  has_column df "isbn13" = false ->
  forall (acc : list Book) (w : World),
  exists outcome w',
    for_each docs
      (fun doc results =>
         fun w0 =>
           match SA.lookup_document df doc results w0 with
           | (Raised e, w1) =>
               if SA.is_value_or_index_error e
               then (logger WARNING
                       ("Error extracting ISBN from document: "
                        ++ exn_str e)%string ;;;
                     ret results)%monad w1
               else (Raised e, w1)
           | r => r
           end)
      acc w
    = (outcome, w')
    /\ (outcome = Returned acc \/ outcome = Raised (KeyError "isbn13")).
Proof.
  intros Hcol. induction docs as [| doc docs IH]; intros acc w.
  - exists (Returned acc), w. split; [reflexivity | now left].
  - simpl for_each. unfold bind at 1.
    destruct (lookup_document_without_column df doc acc w Hcol)
      as (e & -> & [He | ->]).
    + rewrite He. cbv beta iota. unfold bind at 1. unfold logger at 1.
      unfold ret at 1. cbv beta iota.
      match goal with
      | |- context [for_each docs _ acc ?w1] =>
          destruct (IH acc w1) as (outcome & w' & E & Hout)
      end.
      exists outcome, w'. split; [exact E | exact Hout].
    + cbn [SA.is_value_or_index_error]. cbv beta iota.
      eexists _, _. split; [reflexivity | now right].
Qed.

(** X13. [_perform_semantic_search] degrades to an empty list and never
    raises.  Without a vector store, with a store that is false in
    Python's sense, or without a catalogue, it logs one error and returns
    [[]] without searching; when the search itself raises, it logs the
    exception and returns [[]]; when the catalogue has no [isbn13] column
    it returns [[]], whatever was found before. *)
Theorem semantic_search_degrades_to_empty
    (self : SA.t) (query : string) (top_k : Z) (w : World) :
  (SA.vector_db self = None \/ SA.books_df self = None
   \/ (exists db, SA.vector_db self = Some db /\ bool_value db = false) ->
   SA._perform_semantic_search self query top_k w
   = (Returned [],
      add_log w ERROR "Vector database or books data not available"))
  /\ (forall db df e,
         SA.vector_db self = Some db -> bool_value db = true ->
         SA.books_df self = Some df ->
         similarity_search db query top_k = Raised e ->
         SA._perform_semantic_search self query top_k w
         = (Returned [],
            add_log w ERROR
              ("Error in semantic search: " ++ exn_str e)%string))
  /\ (forall db df,
         SA.vector_db self = Some db -> bool_value db = true ->
         SA.books_df self = Some df ->
         has_column df "isbn13" = false ->
         exists w',
           SA._perform_semantic_search self query top_k w = (Returned [], w')).
Proof.
  split; [| split].
  - intros H. unfold SA._perform_semantic_search.
    destruct (SA.vector_db self) as [db |] eqn:Edb;
      destruct (SA.books_df self) as [df |] eqn:Edf; try reflexivity.
    destruct H as [H | [H | (db' & H & Hb)]]; try discriminate.
    inversion H; subst. rewrite Hb. reflexivity.
  - intros db df e Hdb Hb Hdf Hs. unfold SA._perform_semantic_search.
    rewrite Hdb, Hdf, Hb. cbn [negb]. unfold try_except, bind at 1, lift.
    rewrite Hs. reflexivity.
  - intros db df Hdb Hb Hdf Hcol. unfold SA._perform_semantic_search.
    rewrite Hdb, Hdf, Hb. cbn [negb]. unfold try_except.
    unfold bind at 1. unfold lift at 1.
    destruct (similarity_search db query top_k) as [docs | e].
    + destruct (search_loop_without_column df docs Hcol [] w)
        as (outcome & w' & E & [-> | ->]); rewrite E;
        eexists; reflexivity.
    + eexists. reflexivity.
Qed.

(** ** suggestion_agent.py: filters and scores *)

Lemma filter_filter {A : Type} (p q : A -> bool) (l : list A) :
  filter p (filter q l) = filter (fun x => q x && p x) l.
Proof.
  induction l as [| x l IH]; simpl; [reflexivity |].
  destruct (q x); simpl; [destruct (p x) |]; now rewrite IH.
Qed.

Lemma filter_true {A : Type} (l : list A) : filter (fun _ => true) l = l.
Proof. induction l; simpl; congruence. Qed.

(** The list [_apply_filters] has after its category and rating steps. *)
Lemma apply_filters_narrowing (semantic_results : list Book)
    (filters : Filters.t) :
  SA._apply_filters semantic_results filters
  = let narrowed :=
      filter (fun r => category_ok filters r && rating_ok filters r)
             semantic_results in
    if tone_requested filters
    then SA._filter_by_emotion narrowed (SA._get_emotion_scores narrowed)
           (get (Filters.emotion_tone filters) "")
    else narrowed.
Proof.
  unfold SA._apply_filters. cbv zeta.
  set (stage := if SA.truthy_R (Filters.min_rating filters) then _ else _).
  assert (E : stage
              = filter (fun r => category_ok filters r && rating_ok filters r)
                       semantic_results).
  { unfold stage, category_ok, rating_ok, category_requested.
    destruct (SA.truthy_str (Filters.category filters)
              && negb (String.eqb (get (Filters.category filters) "") "All"));
      destruct (SA.truthy_R (Filters.min_rating filters)).
    - rewrite filter_filter. reflexivity.
    - apply filter_ext. intros r. symmetry. apply andb_true_r.
    - reflexivity.
    - symmetry. apply filter_true. }
  rewrite E. reflexivity.
Qed.

(** X14. Without an emotion tone, [_apply_filters] keeps exactly the
    candidates that pass both the category condition and the
    minimum-rating condition, in retrieval order; the two filters can be
    taken in either order.  A category that is missing, empty or "All"
    and a minimum rating that is missing or 0 filter nothing. *)
Theorem apply_filters_is_conjunction
    (semantic_results : list Book) (filters : Filters.t) :
  tone_requested filters = false ->
  SA._apply_filters semantic_results filters
  = filter (fun r => category_ok filters r && rating_ok filters r)
           semantic_results
  /\ SA._apply_filters semantic_results filters
     = filter (category_ok filters)
              (filter (rating_ok filters) semantic_results)
  /\ (category_requested filters = false ->
      SA.truthy_R (Filters.min_rating filters) = false ->
      SA._apply_filters semantic_results filters = semantic_results).
Proof.
  intros Htone. rewrite apply_filters_narrowing. cbv zeta. rewrite Htone.
  split; [reflexivity | split].
  - rewrite filter_filter. apply filter_ext. intros r. apply andb_comm.
  - intros Hc Hr. unfold category_ok, rating_ok. rewrite Hc, Hr.
    apply filter_true.
Qed.

Lemma apply_filters_is_conjunction_witness :
  SA._apply_filters [book_A; book_B] Filters.empty
  = filter (fun r => category_ok Filters.empty r && rating_ok Filters.empty r)
           [book_A; book_B].
Proof.
  apply (apply_filters_is_conjunction [book_A; book_B] Filters.empty);
    reflexivity.
Defined.

Lemma emotion_scores_collect (results : list Book) :
  SA._get_emotion_scores results
  = collect_into Isbn_eq_dec SA.key_of
      (fun result =>
         mkEmotions (get (joy result) 0) (get (sadness result) 0)
           (get (anger result) 0) (get (fear result) 0)
           (get (surprise result) 0))
      results [].
Proof. reflexivity. Qed.

(** X15. With an emotion tone, [_apply_filters] removes nothing more: its
    result is a rearrangement, in descending order of [emotion_score], of
    the candidates that pass the category and rating conditions, each
    with its [emotion_score] set.  With distinct keys that score is the
    candidate's own value of the emotion the tone stands for (joy for an
    unknown tone), 0.0 when the candidate has no such value. *)
Theorem emotion_tone_reorders_without_removing
    (semantic_results : list Book) (filters : Filters.t) :
  tone_requested filters = true ->
  let narrowed :=
    filter (fun r => category_ok filters r && rating_ok filters r)
           semantic_results in
  let tone := get (Filters.emotion_tone filters) "" in
  let output := SA._apply_filters semantic_results filters in
  List.length output = List.length narrowed
  /\ descending (fun x => get (emotion_score x) 0) output
  /\ (forall r, In r output ->
        exists r0 v, In r0 narrowed /\ r = set_emotion_score r0 v)
  /\ (NoDup (map SA.key_of narrowed) ->
      Permutation output
        (map (fun r0 => set_emotion_score r0 (own_emotion tone r0)) narrowed)).
Proof.
  intros Htone narrowed tone output. unfold output.
  rewrite apply_filters_narrowing. cbv zeta. rewrite Htone.
  fold narrowed. fold tone. unfold SA._filter_by_emotion.
  set (tagged := map _ narrowed).
  split; [| split; [| split]].
  - rewrite (Permutation_length (py_sorted_desc_permutation _ tagged)).
    unfold tagged. apply length_map.
  - apply py_sorted_desc_descending.
  - intros r Hr.
    apply (Permutation_in _ (py_sorted_desc_permutation _ tagged)) in Hr.
    unfold tagged in Hr. apply in_map_iff in Hr.
    destruct Hr as (r0 & <- & Hr0). eauto.
  - intros Hnd.
    eapply perm_trans; [apply py_sorted_desc_permutation |].
    unfold tagged. apply Permutation_refl'.
    apply map_ext_in. intros r0 Hr0. f_equal.
    rewrite emotion_scores_collect.
    rewrite (collect_present Isbn_eq_dec SA.key_of _ narrowed [] r0 Hnd Hr0).
    reflexivity.
Qed.

Lemma emotion_tone_reorders_without_removing_witness :
  List.length (SA._apply_filters [book_A; book_B] happy)
  = List.length
      (filter (fun r => category_ok happy r && rating_ok happy r)
              [book_A; book_B]).
Proof.
  apply (emotion_tone_reorders_without_removing [book_A; book_B] happy);
    reflexivity.
Defined.

Section CollectMore.
Context {K V A : Type}.
Variable K_eq_dec : forall a b : K, {a = b} + {a <> b}.
Variables (key : A -> K) (value : A -> V).

Lemma collect_app (l1 l2 : list A) (acc : list (K * V)) :
  collect_into K_eq_dec key value (l1 ++ l2) acc
  = collect_into K_eq_dec key value l2
      (collect_into K_eq_dec key value l1 acc).
Proof. unfold collect_into. apply fold_left_app. Qed.

(** The value stored under a key is that of the last element with it. *)
Lemma collect_last (before after : list A) (x : A) (acc : list (K * V)) :
  ~ In (key x) (map key after) ->
  dict_get K_eq_dec
    (collect_into K_eq_dec key value (before ++ x :: after) acc) (key x)
  = Some (value x).
Proof.
  intros Hn. rewrite collect_app.
  change (collect_into K_eq_dec key value (x :: after) ?a)
    with (collect_into K_eq_dec key value after
            (dict_set K_eq_dec a (key x) (value x))).
  rewrite collect_absent by exact Hn. apply dict_get_set_same.
Qed.

Lemma collect_defined (l : list A) :
  forall (acc : list (K * V)) (k : K),
    In k (map key l) \/ dict_get K_eq_dec acc k <> None ->
    dict_get K_eq_dec (collect_into K_eq_dec key value l acc) k <> None.
Proof.
  induction l as [| x l IH]; intros acc k H.
  - destruct H as [[] | H]. exact H.
  - change (collect_into K_eq_dec key value (x :: l) acc)
      with (collect_into K_eq_dec key value l
              (dict_set K_eq_dec acc (key x) (value x))).
    apply IH.
    destruct (in_dec K_eq_dec k (map key l)) as [Hin | Hout];
      [now left | right].
    destruct (K_eq_dec k (key x)) as [-> | Hne].
    + rewrite dict_get_set_same. discriminate.
    + rewrite dict_get_set_other by exact Hne.
      destruct H as [[E | Hin] | H]; [congruence | contradiction | exact H].
Qed.
End CollectMore.

(** X16. The scores [_get_popularity_scores] records: none at all
    without a popularity agent; with one, every key of the candidates and
    no other has a score, and when candidates share a key the score of the
    last of them is the one recorded. *)
Theorem popularity_scores_last_duplicate_wins
    (self : SA.t) (results : list Book) :
  (SA.popularity_agent self = None ->
   SA._get_popularity_scores self results = [])
  /\ (SA.popularity_agent self <> None ->
      (forall before b after,
          results = before ++ b :: after ->
          ~ In (SA.key_of b) (map SA.key_of after) ->
          dict_get Isbn_eq_dec (SA._get_popularity_scores self results)
                   (SA.key_of b)
          = Some (SA._calculate_simple_popularity_score b))
      /\ (forall k,
             dict_get Isbn_eq_dec (SA._get_popularity_scores self results) k
             = None
             <-> ~ In k (map SA.key_of results))).
Proof.
  unfold SA._get_popularity_scores. split.
  - intros ->. reflexivity.
  - intros Hagent.
    destruct (SA.popularity_agent self); [| congruence].
    change (fold_left _ results [])
      with (collect_into Isbn_eq_dec SA.key_of
              SA._calculate_simple_popularity_score results []).
    split.
    + intros before b after -> Hn. now apply collect_last.
    + intros k. split.
      * intros Hnone Hin.
        apply (collect_defined Isbn_eq_dec SA.key_of
                 SA._calculate_simple_popularity_score results [] k);
          [now left | exact Hnone].
      * intros Hout. now rewrite collect_absent.
Qed.

Lemma py_sorted_desc_fixes_descending {A : Type} (key : A -> R) (l : list A) :
  descending key l -> py_sorted_desc key l = l.
Proof.
  unfold descending. induction 1 as [| x l Hs IH Hall]; [reflexivity |].
  simpl. rewrite IH. destruct l as [| y l]; [reflexivity |].
  simpl. inversion Hall as [| ? ? Hy _]; subst.
  destruct (Rlt_dec (key x) (key y)); [exfalso; lra | reflexivity].
Qed.

Lemma constant_key_descending {A : Type} (key : A -> R) (c : R) (l : list A) :
  Forall (fun x => key x = c) l -> descending key l.
Proof.
  unfold descending. induction 1 as [| x l Hx Hl IH]; constructor.
  - exact IH.
  - eapply Forall_impl; [| exact Hl]. simpl. intros y Hy. lra.
Qed.

(** X17. Without a popularity agent the recommendations are not ranked:
    they are the deduplicated filtered candidates in their order, each
    with [popularity_score] 0.0, truncated to [top_k]. *)
Theorem recommend_without_popularity_agent
    (self : SA.t) (semantic_results : list Book) (filters : Filters.t)
    (top_k : Z) :
  SA.popularity_agent self = None ->
  recommend self semantic_results filters top_k
  = py_slice_to
      (map (fun r => set_popularity_score r 0)
           (snd (SA.remove_duplicates
                   (SA._apply_filters semantic_results filters))))
      top_k.
Proof.
  intros Hagent. unfold recommend. cbv zeta.
  unfold SA._get_popularity_scores. rewrite Hagent.
  unfold SA._synthesize_recommendations. cbv zeta. cbn [dict_get get].
  rewrite py_sorted_desc_fixes_descending; [reflexivity |].
  apply (constant_key_descending _ 0).
  apply Forall_forall. intros r Hr. apply in_map_iff in Hr.
  destruct Hr as (r0 & <- & _). reflexivity.
Qed.

Lemma recommend_without_popularity_agent_witness :
  recommend agent_without_popularity [book_B; book_A; book_B] Filters.empty 5
  = py_slice_to
      (map (fun r => set_popularity_score r 0)
           (snd (SA.remove_duplicates
                   (SA._apply_filters [book_B; book_A; book_B]
                      Filters.empty))))
      5.
Proof.
  apply (recommend_without_popularity_agent agent_without_popularity
           [book_B; book_A; book_B] Filters.empty 5).
  reflexivity.
Defined.

(** ** suggestion_agent.py: the personalised pipeline *)

Section UniqueBy.
Context {A : Type}.
Variable key : A -> Isbn.

Lemma dedup_loop_unique_by (results : list A) :
  forall (seen_isbns : list Isbn) (unique_results : list A),
    snd (fold_left
           (fun st result =>
              let '(seen_isbns, unique_results) := st in
              let isbn := key result in
              if truthy isbn
                 && negb (if in_dec Isbn_eq_dec isbn seen_isbns
                          then true else false)
              then (isbn :: seen_isbns, unique_results ++ [result])
              else (seen_isbns, unique_results))
           results (seen_isbns, unique_results))
    = unique_results ++ unique_by key seen_isbns results.
Proof.
  induction results as [| r results IH]; intros seen_isbns unique_results.
  - simpl. now rewrite app_nil_r.
  - simpl fold_left. simpl unique_by. unfold seen.
    destruct (truthy (key r)
              && negb (if in_dec Isbn_eq_dec (key r) seen_isbns
                       then true else false)).
    + rewrite IH. now rewrite <- app_assoc.
    + apply IH.
Qed.

Lemma unique_by_first_seen (results : list A) :
  forall (seen_isbns : list Isbn) (r : A),
    In r (unique_by key seen_isbns results) ->
    truthy (key r) = true
    /\ ~ In (key r) seen_isbns
    /\ exists before after,
         results = before ++ r :: after
         /\ forall x, In x before -> key x <> key r.
Proof.
  induction results as [| r0 results IH]; intros seen_isbns r Hin;
    [contradiction |].
  simpl in Hin.
  destruct (truthy (key r0)) eqn:Ht;
    destruct (seen (key r0) seen_isbns) eqn:Hs; simpl in Hin;
    try (destruct Hin as [<- | Hin];
         [repeat split; [exact Ht | now apply seen_false_iff |];
          exists [], results; split; [reflexivity | intros x []] |]);
    destruct (IH _ _ Hin) as (T & N & before & after & E & F);
    (repeat split; [exact T | intros H; apply N; simpl; tauto |]);
    exists (r0 :: before), after; (split; [now rewrite E |]);
    intros x [<- | Hx]; try (now apply F); intros Ek.
  - apply N. rewrite <- Ek. now apply seen_true_iff.
  - apply N. left. exact Ek.
  - congruence.
  - congruence.
Qed.

Lemma unique_by_NoDup (results : list A) :
  forall seen_isbns : list Isbn,
    NoDup (map key (unique_by key seen_isbns results)).
Proof.
  induction results as [| r0 results IH]; intros seen_isbns; simpl;
    [constructor |].
  destruct (truthy (key r0) && negb (seen (key r0) seen_isbns));
    [| apply IH].
  simpl. constructor; [| apply IH].
  intros Hin. apply in_map_iff in Hin. destruct Hin as (r & Ek & Hr).
  destruct (unique_by_first_seen _ _ _ Hr) as (_ & N & _).
  apply N. left. now rewrite Ek.
Qed.
End UniqueBy.

Lemma boost_values (preferences : SA.CombinedPreferences) (b : Book) :
  (SA.boost_of preferences b = 0 \/ SA.boost_of preferences b = 1 / 10
   \/ SA.boost_of preferences b = 2 / 10 \/ SA.boost_of preferences b = 3 / 10)
  /\ (SA.cp_min_rating preferences = SA.NaN ->
      SA.boost_of preferences b <= 2 / 10).
Proof.
  unfold SA.boost_of. cbv zeta. split.
  - destruct (SA.in_strings _ _), (SA.ge_float _ _);
      [right; right; right | right; right; left | right; left | left]; lra.
  - intros ->. cbn [SA.ge_float]. destruct (SA.in_strings _ _); lra.
Qed.

Lemma personalized_search_eq (self : SA.t) (query : string)
    (preferences : SA.CombinedPreferences) (top_k : Z) (w : World) :
  exists semantic_results w',
    SA._perform_semantic_search self query top_k w
    = (Returned semantic_results, w')
    /\ SA._perform_personalized_search self query preferences top_k w
       = (Returned
            (py_sorted_desc boost
               (map (fun result =>
                       SA.mkScored result
                         (Some (SA.boost_of preferences result)) None)
                    semantic_results)),
          w').
Proof.
  destruct (perform_semantic_search_returns self query top_k w)
    as (semantic_results & w' & E).
  exists semantic_results, w'. split; [exact E |].
  unfold SA._perform_personalized_search, bind. rewrite E. reflexivity.
Qed.

(** X18. [_perform_personalized_search] never raises.  Its results are
    the results of the semantic search, each with a
    [personalization_boost] of 0, 0.1, 0.2 or 0.3 (0.2 for a preferred
    genre, 0.1 for a rating that reaches the minimum) and no final score
    yet, in descending order of boost.  When the minimum
    rating is [nan] no result gets the rating part, so no boost exceeds
    0.2. *)
Theorem personalized_search_boosts_and_orders
    (self : SA.t) (query : string) (preferences : SA.CombinedPreferences)
    (top_k : Z) (w : World) :
  exists semantic_results results w',
    SA._perform_semantic_search self query top_k w
    = (Returned semantic_results, w')
    /\ SA._perform_personalized_search self query preferences top_k w
       = (Returned results, w')
    /\ Permutation (map SA.book results) semantic_results
    /\ descending boost results
    /\ Forall (fun r =>
                 SA.final_score r = None
                 /\ SA.personalization_boost r
                    = Some (SA.boost_of preferences (SA.book r))
                 /\ (boost r = 0 \/ boost r = 1 / 10 \/ boost r = 2 / 10
                     \/ boost r = 3 / 10)
                 /\ (SA.cp_min_rating preferences = SA.NaN ->
                     boost r <= 2 / 10))
              results.
Proof.
  destruct (personalized_search_eq self query preferences top_k w)
    as (semantic_results & w' & E1 & E2).
  eexists semantic_results, _, w'.
  split; [exact E1 | split; [exact E2 |]].
  set (tagged := map _ semantic_results).
  split; [| split].
  - eapply perm_trans;
      [apply Permutation_map, py_sorted_desc_permutation |].
    unfold tagged. rewrite map_map. cbn [SA.book]. rewrite map_id.
    apply Permutation_refl.
  - apply py_sorted_desc_descending.
  - apply Forall_forall. intros r Hr.
    apply (Permutation_in _ (py_sorted_desc_permutation boost tagged)) in Hr.
    unfold tagged in Hr. apply in_map_iff in Hr.
    destruct Hr as (b & <- & _). unfold boost.
    cbn [SA.final_score SA.personalization_boost SA.book get].
    pose proof (boost_values preferences b) as [Hv Hn].
    repeat split; assumption.
Qed.

Lemma remove_duplicates_scored_unique (results : list SA.Scored) :
  snd (SA.remove_duplicates_scored results) = unique_by scored_key [] results.
Proof. exact (dedup_loop_unique_by scored_key results [] []). Qed.

Lemma score_personalized_eq (results : list SA.Scored)
    (user_preferences : SA.UserPreferences) (top_k : Z) :
  SA._score_personalized_recommendations results user_preferences top_k
  = py_slice_to
      (py_sorted_desc final
         (map with_final_score (unique_by scored_key [] results)))
      top_k.
Proof.
  unfold SA._score_personalized_recommendations. cbv zeta.
  rewrite remove_duplicates_scored_unique. reflexivity.
Qed.

Lemma scored_output_origin (results : list SA.Scored)
    (user_preferences : SA.UserPreferences) (top_k : Z) (r : SA.Scored) :
  In r (SA._score_personalized_recommendations results user_preferences top_k)
  -> exists first,
       In first (unique_by scored_key [] results)
       /\ r = with_final_score first.
Proof.
  rewrite score_personalized_eq. intros Hr.
  destruct (py_slice_to_is_firstn
              (py_sorted_desc final
                 (map with_final_score (unique_by scored_key [] results)))
              top_k) as [m Em].
  rewrite Em in Hr.
  assert (Hin : In r (map with_final_score (unique_by scored_key [] results))).
  { apply (Permutation_in _ (py_sorted_desc_permutation final _)).
    rewrite <- (firstn_skipn m (py_sorted_desc final _)).
    apply in_or_app. now left. }
  apply in_map_iff in Hin. destruct Hin as (first & <- & Hfirst). eauto.
Qed.



Lemma fold_left_sum {A : Type} (f : A -> R) (l : list A) :
  forall acc,
    (forall x, In x l -> 0 <= f x <= 1) ->
    acc <= fold_left (fun total x => total + f x) l acc
    <= acc + INR (List.length l).
Proof.
  induction l as [| x l IH]; intros acc Hf.
  - simpl. lra.
  - cbn [fold_left List.length]. rewrite S_INR.
    pose proof (Hf x (or_introl eq_refl)).
    pose proof (IH (acc + f x) (fun y Hy => Hf y (or_intror Hy))). lra.
Qed.

Lemma fold_left_sum_constant {A : Type} (f : A -> R) (c : R) (l : list A) :
  forall acc,
    (forall x, In x l -> f x = c) ->
    fold_left (fun total x => total + f x) l acc
    = acc + INR (List.length l) * c.
Proof.
  induction l as [| x l IH]; intros acc Hf.
  - simpl. lra.
  - cbn [fold_left List.length]. rewrite S_INR.
    rewrite IH by (intros y Hy; apply Hf; now right).
    rewrite (Hf x (or_introl eq_refl)). lra.
Qed.

Lemma fold_left_pointwise {A B : Type} (f g : B -> A -> B) (l : list A) :
  (forall b a, f b a = g b a) ->
  forall acc, fold_left f l acc = fold_left g l acc.
Proof.
  intros H. induction l as [| x l IH]; intros acc; [reflexivity |].
  simpl. now rewrite H, IH.
Qed.

(** X20. The personalisation score of a list of recommendations lies in
    [0, 1] and is 0.0 for the empty list.  It is 1 when every
    recommendation is of a preferred genre and reaches the minimum rating
    (3.0 when the preferences give none), and 0 when none does either. *)
Theorem personalization_score_in_unit_interval
    (recommendations : list SA.Scored)
    (user_preferences : SA.UserPreferences) :
  let genre_match r :=
    SA.in_strings (simple_categories (SA.book r))
      (get (SA.up_preferred_genres user_preferences) []) in
  let rating_match r :=
    Rgeb (get (average_rating (SA.book r)) 0)
         (get (SA.up_min_rating user_preferences) 3) in
  let score :=
    SA._calculate_personalization_score recommendations user_preferences in
  0 <= score <= 1
  /\ (recommendations = [] -> score = 0)
  /\ (recommendations <> [] ->
      (forall r, In r recommendations ->
                 genre_match r = true /\ rating_match r = true) ->
      score = 1)
  /\ ((forall r, In r recommendations ->
                 genre_match r = false /\ rating_match r = false) ->
      score = 0).
Proof.
  intros genre_match rating_match score. unfold score.
  unfold SA._calculate_personalization_score.
  destruct recommendations as [| r0 rest].
  { split; [lra |]. split; [reflexivity |].
    split; [intros H; congruence | reflexivity]. }
  set (recs := r0 :: rest).
  set (f := fun rec : SA.Scored =>
              (if SA.in_strings (simple_categories (SA.book rec))
                    (get (SA.up_preferred_genres user_preferences) [])
               then 5 / 10 else 0)
              + (if Rgeb (get (average_rating (SA.book rec)) 0)
                         (get (SA.up_min_rating user_preferences) 3)
                 then 5 / 10 else 0)).
  rewrite (fold_left_pointwise _ (fun total x => total + f x)).
  2:{ intros total rec. cbv zeta. unfold f.
      destruct (Rgeb _ _), (SA.in_strings _ _); lra. }
  assert (Hn : 0 < INR (List.length recs)).
  { unfold recs. cbn [List.length]. rewrite S_INR.
    pose proof (pos_INR (List.length rest)). lra. }
  assert (Hf : forall x, In x recs -> 0 <= f x <= 1).
  { intros x _. unfold f. destruct (Rgeb _ _), (SA.in_strings _ _); lra. }
  pose proof (fold_left_sum f recs 0 Hf) as Hsum.
  set (total := fold_left (fun total x => total + f x) recs 0) in *.
  set (n := INR (List.length recs)) in *.
  assert (Et : total / n * n = total) by (field; lra).
  split; [| split; [| split]].
  - split; apply Rmult_le_reg_r with n; try exact Hn; rewrite Et; lra.
  - discriminate.
  - intros _ Hall.
    assert (E1 : total = 0 + n * 1).
    { unfold total, n. apply fold_left_sum_constant. intros x Hx.
      destruct (Hall x Hx) as [Hg Hr]. unfold genre_match in Hg.
      unfold rating_match in Hr. unfold f. rewrite Hg, Hr. lra. }
    rewrite E1. field. lra.
  - intros Hall.
    assert (E0 : total = 0 + n * 0).
    { unfold total, n. apply fold_left_sum_constant. intros x Hx.
      destruct (Hall x Hx) as [Hg Hr]. unfold genre_match in Hg.
      unfold rating_match in Hr. unfold f. rewrite Hg, Hr. lra. }
    rewrite E0. field. lra.
Qed.

Lemma unique_by_In {A : Type} (key : A -> Isbn) (results : list A)
    (seen_isbns : list Isbn) (r : A) :
  In r (unique_by key seen_isbns results) -> In r results.
Proof.
  intros H.
  destruct (unique_by_first_seen key _ _ _ H) as (_ & _ & b & a & -> & _).
  apply in_or_app. right. now left.
Qed.

(** X21. The personalised pipeline (preferences, boosted search, rating
    filter, final ranking) never raises.  Every recommendation reaches
    the minimum rating of the user's preferences (3.0 when they give
    none), no two share a key, and the final score is the popularity
    score the record carries plus its boost.  The pipeline computes no
    popularity score itself: for a record that carries none, the final
    score is the boost alone, at most 0.3. *)
Theorem personalized_pipeline_ranks_by_boost
    (self : SA.t) (query : string) (user_preferences : SA.UserPreferences)
    (user_history : list Book) (top_k : Z) (w : World) :
  let preferences := SA._analyze_user_preferences query user_history in
  exists output w',
    personalized_recommendations self query user_preferences user_history
      top_k w
    = (Returned output, w')
    /\ NoDup (map scored_key output)
    /\ Forall (fun r =>
                 get (SA.up_min_rating user_preferences) 3
                 <= get (average_rating (SA.book r)) 0
                 /\ SA.personalization_boost r
                    = Some (SA.boost_of preferences (SA.book r))
                 /\ SA.final_score r
                    = Some (get (popularity_score (SA.book r)) 0
                            + SA.boost_of preferences (SA.book r))
                 /\ (popularity_score (SA.book r) = None ->
                     final r = SA.boost_of preferences (SA.book r)
                     /\ 0 <= final r <= 3 / 10))
              output.
Proof.
  intros preferences.
  destruct (personalized_search_eq self query preferences (top_k * 2) w)
    as (semantic_results & w' & _ & E).
  unfold personalized_recommendations. cbv zeta. fold preferences.
  unfold bind. rewrite E. unfold ret.
  eexists _, w'. split; [reflexivity |].
  set (tagged := map _ semantic_results).
  set (filtered := SA._apply_personalized_filters _ user_preferences).
  split.
  - rewrite score_personalized_eq.
    destruct (py_slice_to_is_firstn
                (py_sorted_desc final
                   (map with_final_score (unique_by scored_key [] filtered)))
                top_k) as [m ->].
    rewrite <- firstn_map. apply NoDup_firstn.
    apply (Permutation_NoDup
             (l := map scored_key
                     (map with_final_score (unique_by scored_key [] filtered)))).
    + apply Permutation_map, Permutation_sym, py_sorted_desc_permutation.
    + rewrite map_map. apply unique_by_NoDup.
  - apply Forall_forall. intros r Hr.
    destruct (scored_output_origin filtered user_preferences top_k r Hr)
      as (first & Hfirst & ->).
    apply unique_by_In in Hfirst. unfold filtered in Hfirst.
    unfold SA._apply_personalized_filters in Hfirst. cbv zeta in Hfirst.
    apply filter_In in Hfirst. destruct Hfirst as [Hsorted Hrating].
    apply (Permutation_in _ (py_sorted_desc_permutation _ tagged)) in Hsorted.
    unfold tagged in Hsorted. apply in_map_iff in Hsorted.
    destruct Hsorted as (b & <- & _).
    cbn [SA.book SA.personalization_boost] in Hrating.
    unfold with_final_score, final.
    cbn [SA.book SA.personalization_boost SA.final_score get].
    pose proof (boost_values preferences b) as [Hv _].
    split; [| split; [reflexivity | split; [reflexivity |]]].
    + unfold Rgeb in Hrating.
      destruct (Rle_dec (get (SA.up_min_rating user_preferences) 3)
                        (get (average_rating b) 0));
        [assumption | discriminate].
    + intros ->. cbn [get]. split; [lra |].
      destruct Hv as [-> | [-> | [-> | ->]]]; lra.
Qed.

(** ** suggestion_agent.py: dispatch *)

Lemma suggestion_error_response_eq (self : SA.t)
    (original : AgentMessage) (text : string) (w : World) :
  exists w',
    SA._create_error_response self original text w
    = (Returned
         (mkMessage (next_uuid w) (BaseAgent.agent_id (SA.base self))
            (sender_id original) "error_response"
            (ErrorContent text (message_id original) (clock w))
            (N.succ (clock w)) 3),
       w').
Proof.
  eexists. unfold SA._create_error_response, bind, datetime_now.
  rewrite send_message_eq. reflexivity.
Qed.

Lemma recommendation_request_returns
    (self : SA.t) (message : AgentMessage) (w : World) :
  exists response w',
    SA._handle_recommendation_request self message w = (Returned response, w')
    /\ message_type response = "recommendation_result"
    /\ receiver_id response = sender_id message.
Proof.
  unfold SA._handle_recommendation_request. cbv zeta.
  match goal with
  | |- context [SA._perform_semantic_search self ?q ?k] =>
      destruct (perform_semantic_search_returns self q k w)
        as (semantic_results & w1 & E)
  end.
  unfold bind at 1. rewrite E. unfold bind, datetime_now.
  rewrite send_message_eq. eexists _, _. repeat split.
Qed.

Lemma suggestion_process_message_dispatch
    (search analysis personalized : SA.t -> AgentMessage -> M AgentMessage)
    (self : SA.t) (message : AgentMessage) (w : World) :
  SA.process_message search analysis personalized self message w
  = try_except
      (match suggestion_handler_of search analysis personalized
               (message_type message) with
       | Some handler =>
           (response <- handler self message ;; ret (Some response))%monad
       | None =>
           (logger WARNING
              ("Unknown message type: " ++ message_type message)%string ;;;
            ret None)%monad
       end)
      (fun e =>
         (logger ERROR ("Error processing message: " ++ exn_str e)%string ;;;
          response <- SA._create_error_response self message (exn_str e) ;;
          ret (Some response))%monad)
      w.
Proof.
  unfold SA.process_message, suggestion_handler_of.
  repeat match goal with
         | |- context [String.eqb (message_type message) ?k] =>
             destruct (String.eqb (message_type message) k)
         end; reflexivity.
Qed.

(** X22. [process_message] of the suggestion agent never raises, whatever
    its handlers do.  A ["get_recommendations"] message is always answered
    with a [recommendation_result] for the requester, never with an error;
    a message of an unknown type is answered by nothing; when a handler
    raises, the reply is an [error_response] of priority 3 for the
    requester with the text of the exception and the identifier of the
    request. *)
Theorem suggestion_process_message_never_raises
    (search analysis personalized : SA.t -> AgentMessage -> M AgentMessage)
    (self : SA.t) (message : AgentMessage) (w : World) :
  exists response w',
    SA.process_message search analysis personalized self message w
    = (Returned response, w')
    /\ (message_type message = "get_recommendations" ->
        exists reply,
          response = Some reply
          /\ message_type reply = "recommendation_result"
          /\ receiver_id reply = sender_id message)
    /\ match suggestion_handler_of search analysis personalized
               (message_type message) with
       | None => response = None
       | Some handler =>
           match handler self message w with
           | (Returned reply, w1) => response = Some reply /\ w' = w1
           | (Raised e, _) =>
               exists reply,
                 response = Some reply
                 /\ reports_error (SA.base self) message (exn_str e) reply
           end
       end.
Proof.
  rewrite suggestion_process_message_dispatch. unfold try_except.
  destruct (suggestion_handler_of search analysis personalized
              (message_type message)) as [handler |] eqn:Eh.
  - rewrite handled_reply.
    destruct (handler self message w) as [[reply | e] w1] eqn:Er.
    + eexists _, _. split; [reflexivity |]. split; [| now split].
      intros Ht. rewrite Ht in Eh. simpl in Eh. inversion Eh; subst.
      destruct (recommendation_request_returns self message w)
        as (r & w2 & E & Hm & Hrcv).
      rewrite E in Er. inversion Er; subst. eauto.
    + unfold bind at 1. unfold logger at 1. rewrite handled_reply.
      match goal with
      | |- context [SA._create_error_response self message ?t ?w2] =>
          destruct (suggestion_error_response_eq self message t w2) as [w3 E]
      end.
      rewrite E. eexists _, _. split; [reflexivity |]. split.
      * intros Ht. rewrite Ht in Eh. simpl in Eh. inversion Eh; subst.
        destruct (recommendation_request_returns self message w)
          as (r & w2 & E' & _). rewrite E' in Er. discriminate.
      * eexists. split; [reflexivity |]. repeat split. eexists. reflexivity.
  - eexists _, _. split; [reflexivity |]. split; [| reflexivity].
    intros Ht. rewrite Ht in Eh. discriminate.
Qed.

(** ** suggestion_agent.py: reading the number of a document *)

Lemma take_word_app (word rest : string) (c : ascii) :
  all_chars (fun ch => negb (is_space ch)) word = true ->
  is_space c = true ->
  take_word (word ++ String c rest) = word.
Proof.
  intros Hw Hc. induction word as [| x word IH]; simpl.
  - now rewrite Hc.
  - simpl in Hw. apply andb_true_iff in Hw. destruct Hw as [Hx Hw].
    apply negb_true_iff in Hx. rewrite Hx. now rewrite IH.
Qed.

Lemma filter_digits_app (a b : string) :
  filter_digits (a ++ b) = (filter_digits a ++ filter_digits b)%string.
Proof.
  induction a as [| x a IH]; simpl; [reflexivity |].
  destruct (is_digit x); simpl; now rewrite IH.
Qed.

(** X23. How the catalogue number of a document is read: leading
    whitespace is skipped and only the first word counts, whatever
    follows it; characters of that word that are not digits (hyphens,
    letters) are dropped before the number is read.  A blank text raises
    [IndexError] and a first word without a digit raises [ValueError]. *)
Theorem document_number_is_read_from_first_word :
  (forall c s, is_space c = true -> first_word (String c s) = first_word s)
  /\ (forall word c rest,
         word <> "" ->
         all_chars (fun ch => negb (is_space ch)) word = true ->
         is_space c = true ->
         first_word (word ++ String c rest) = Returned word)
  /\ (forall a c b,
         is_digit c = false ->
         filter_digits (a ++ String c b) = filter_digits (a ++ b))
  /\ (forall s, all_chars is_space s = true -> first_word s = Raised IndexError)
  /\ (forall s,
         all_chars (fun ch => negb (is_digit ch)) s = true ->
         py_int (filter_digits s) = Raised ValueError).
Proof.
  split; [| split; [| split; [| split]]].
  - intros c s Hc. unfold first_word. simpl. now rewrite Hc.
  - intros word c rest Hne Hw Hc. unfold first_word.
    destruct word as [| x word]; [congruence |].
    simpl in Hw. apply andb_true_iff in Hw. destruct Hw as [Hx Hw].
    apply negb_true_iff in Hx.
    simpl lstrip. rewrite Hx.
    change (String x word ++ String c rest)%string
      with (String x (word ++ String c rest)).
    cbn [take_word]. rewrite Hx. f_equal. f_equal.
    now apply take_word_app.
  - intros a c b Hc. rewrite !filter_digits_app. simpl. now rewrite Hc.
  - intros s Hs. unfold first_word.
    assert (E : lstrip s = EmptyString).
    { induction s as [| x s IH]; [reflexivity |].
      simpl in Hs. apply andb_true_iff in Hs. destruct Hs as [Hx Hs].
      simpl. rewrite Hx. now apply IH. }
    now rewrite E.
  - intros s Hs.
    assert (E : filter_digits s = EmptyString).
    { induction s as [| x s IH]; [reflexivity |].
      simpl in Hs. apply andb_true_iff in Hs. destruct Hs as [Hx Hs].
      apply negb_true_iff in Hx. simpl. rewrite Hx. now apply IH. }
    now rewrite E.
Qed.

(** A query about history is tagged with both genres. *)
Example history_query_genres :
  SA.preferred_genres
    (SA._extract_preferences_from_query "A History of Rome for Kids")
  = ["Fiction"; "Nonfiction"; "Children's Fiction"].
Proof. reflexivity. Qed.
